(** * Barcode scanner monitor: classifier, keystroke assembler and broadcast hub

    A shallow embedding of three packages of the repository:
    - [pkg/barcode]         (Processor: classification of a scanned content),
    - [internal/scanner]    (Hook: the keyboard hook that assembles keystrokes),
    - [internal/websocket]  (Hub: registration, unregistration and fan-out),
    together with [internal/handlers] which wires the first two to the third. *)

From Stdlib Require Import ZArith String Ascii List Bool Lia.
From stdpp Require Import gmap strings list fin_maps.
Import ListNotations.

Local Open Scope string_scope.

(* ===================================================================== *)
(** ** Package barcode: [Processor] *)
(* ===================================================================== *)

Module Barcode.

(** Go strings are byte sequences and [len] counts bytes; a Rocq [string] is
    the same thing.  [for _, r := range s] decodes runes, but every test made
    on a rune below accepts ASCII code points only, and a byte of a multi-byte
    rune (or an invalid byte, decoded as U+FFFD) is at least 0x80: testing the
    bytes one by one gives the same boolean as testing the runes. *)

Definition code (r : ascii) : N := N_of_ascii r.

(** [r < '0' || r > '9'] negated. *)
Definition isDigitRune (r : ascii) : bool :=
  negb ((code r <? code "0")%N || (code "9" <? code r)%N).

(** The test of [isAlphaNumeric]'s loop body. *)
Definition isAlphaNumericRune (r : ascii) : bool :=
  ((code "0" <=? code r)%N && (code r <=? code "9")%N)
  || ((code "A" <=? code r)%N && (code r <=? code "Z")%N)
  || ((code "a" <=? code r)%N && (code r <=? code "z")%N)
  || (code r =? code "-")%N
  || (code r =? code ".")%N.

(** [isAllDigits]: return false at the first rune outside '0'..'9'. *)
Fixpoint isAllDigits (s : string) : bool :=
  match s with
  | EmptyString => true
  | String r s' => if negb (isDigitRune r) then false else isAllDigits s'
  end.

(** [isAlphaNumeric]: digits, letters, '-' and '.' only. *)
Fixpoint isAlphaNumeric (s : string) : bool :=
  match s with
  | EmptyString => true
  | String r s' => if negb (isAlphaNumericRune r) then false else isAlphaNumeric s'
  end.

(** [strings.HasPrefix(s, p)]. *)
Definition HasPrefix (s p : string) : bool := String.prefix p s.

(** The [switch] of [GetBarcodeType], cases in source order. *)
Definition GetBarcodeType_switch (barcode : string) : string :=
  if (String.length barcode =? 8)%nat && isAllDigits barcode then "EAN-8"
  else if (String.length barcode =? 12)%nat && isAllDigits barcode then "UPC-A"
  else if (String.length barcode =? 13)%nat && isAllDigits barcode then "EAN-13"
  else if (String.length barcode =? 14)%nat && isAllDigits barcode then "ITF-14"
  else if isAlphaNumeric barcode then "Code 128"
  else if HasPrefix barcode "PRD" then "产品条码"
  else if HasPrefix barcode "LOT" then "批次条码"
  else if HasPrefix barcode "SN" then "序列号条码"
  else "其他类型".

(** [GetBarcodeType]: the empty-string guard, then the switch. *)
Definition GetBarcodeType (barcode : string) : string :=
  if String.eqb barcode "" then "未知" else GetBarcodeType_switch barcode.

(** [generateMessage]. *)
Definition generateMessage (barcode : string) : string :=
  if HasPrefix barcode "PRD" then "识别为产品条码，正在查询产品信息..."
  else if HasPrefix barcode "LOT" then "识别为批次条码，正在查询批次信息..."
  else if HasPrefix barcode "SN" then "识别为序列号条码，正在验证序列号..."
  else if (String.length barcode =? 13)%nat && isAllDigits barcode
       then "识别为EAN-13条码，正在验证..."
  else if (String.length barcode =? 12)%nat && isAllDigits barcode
       then "识别为UPC-A条码，正在处理..."
  else if (String.length barcode =? 8)%nat && isAllDigits barcode
       then "识别为EAN-8条码，正在处理..."
  else if (String.length barcode =? 14)%nat && isAllDigits barcode
       then "识别为ITF-14条码，正在处理..."
  else "通用条码，正在记录...".

(** [BarcodeData].  Times are nanoseconds on one clock axis. *)
Record BarcodeData := mkBarcodeData {
  Content : string;
  Length : nat;
  Type_ : string;
  Timestamp : Z;
  Status : string;
  Message : string
}.

(** [ProcessBarcode]; [timestamp] is the reading of [time.Now()]. *)
Definition ProcessBarcode (content : string) (timestamp : Z) : BarcodeData :=
  {| Content := content;
     Length := String.length content;
     Type_ := GetBarcodeType content;
     Timestamp := timestamp;
     Status := "success";
     Message := generateMessage content |}.

(** The type tags [GetBarcodeType] can return besides "unknown". *)
Definition listed_types : list string :=
  [ "EAN-8"; "UPC-A"; "EAN-13"; "ITF-14"; "Code 128";
    "产品条码"; "批次条码"; "序列号条码"; "其他类型" ].

(** A content made of the characters '0'..'9' only. *)
Definition digits_only (s : string) : Prop :=
  Forall (fun r => (48 <= N_of_ascii r <= 57)%N) (list_ascii_of_string s).

(** *** Validation and detail functions of the Processor *)

(** The test of [ValidateBarcode]'s loop body. *)
Definition isLegalRune (r : ascii) : bool :=
  ((code "0" <=? code r)%N && (code r <=? code "9")%N)
  || ((code "A" <=? code r)%N && (code r <=? code "Z")%N)
  || ((code "a" <=? code r)%N && (code r <=? code "z")%N)
  || (code r =? code "-")%N || (code r =? code ".")%N || (code r =? code "_")%N
  || (code r =? code "/")%N || (code r =? code "\")%N || (code r =? code ":")%N
  || (code r =? code ";")%N || (code r =? code "[")%N || (code r =? code "]")%N
  || (code r =? code "(")%N || (code r =? code ")")%N || (code r =? code "+")%N
  || (code r =? code "=")%N || (code r =? code " ")%N.

(** The loop of [ValidateBarcode]: true when it meets an illegal rune. *)
Fixpoint hasIllegalRune (s : string) : bool :=
  match s with
  | EmptyString => false
  | String r s' => if negb (isLegalRune r) then true else hasIllegalRune s'
  end.

(** [ValidateBarcode]: the verdict and its message. *)
Definition ValidateBarcode (barcode : string) : bool * string :=
  if String.eqb barcode "" then (false, "条码不能为空")
  else if (String.length barcode <? 3)%nat then (false, "条码长度太短")
  else if (50 <? String.length barcode)%nat then (false, "条码长度太长")
  else if hasIllegalRune barcode then (false, "条码包含非法字符")
  else (true, "条码格式有效").

(** Go's [s >= t] on strings: byte-wise lexicographic order. *)
Definition geString (s t : string) : bool := String.leb t s.
Definition leString (s t : string) : bool := String.leb s t.

(** The [switch] of [getEAN13CountryCode] on [countryCode], cases in source
    order. *)
Definition countryOfPrefix (countryCode : string) : string :=
  if geString countryCode "690" && leString countryCode "699" then "中国"
  else if geString countryCode "000" && leString countryCode "019" then "美国/加拿大"
  else if geString countryCode "020" && leString countryCode "029" then "店内使用"
  else if geString countryCode "030" && leString countryCode "039" then "美国药品"
  else if geString countryCode "400" && leString countryCode "440" then "德国"
  else if geString countryCode "450" && leString countryCode "459" then "日本"
  else if geString countryCode "460" && leString countryCode "469" then "俄罗斯"
  else if geString countryCode "471" then "台湾"
  else if geString countryCode "480" && leString countryCode "489" then "菲律宾"
  else "其他国家".

(** [getEAN13CountryCode]; [barcode[:3]] is [substring 0 3]. *)
Definition getEAN13CountryCode (barcode : string) : string :=
  if negb (String.length barcode =? 13)%nat || negb (isAllDigits barcode)
  then "未知"
  else countryOfPrefix (substring 0 3 barcode).

(** [getUPCAManufacturerCode]. *)
Definition getUPCAManufacturerCode (barcode : string) : string :=
  if negb (String.length barcode =? 12)%nat || negb (isAllDigits barcode)
  then "未知"
  else substring 0 6 barcode.

(** [strings.TrimPrefix(s, p)]. *)
Definition TrimPrefix (s p : string) : string :=
  if HasPrefix s p
  then substring (String.length p) (String.length s - String.length p) s
  else s.

(** The values stored in the map built by [GetBarcodeInfo]. *)
Inductive InfoValue :=
| VString (s : string)
| VInt (n : nat)
| VBool (b : bool).

(** [GetBarcodeInfo]: the five common entries, then the entry of the type. *)
Definition GetBarcodeInfo (barcode : string) : gmap string InfoValue :=
  let info : gmap string InfoValue :=
    <["is_alpha" := VBool (isAlphaNumeric barcode)]>
    (<["is_numeric" := VBool (isAllDigits barcode)]>
    (<["type" := VString (GetBarcodeType barcode)]>
    (<["length" := VInt (String.length barcode)]>
    (<["content" := VString barcode]> ∅)))) in
  let ty := GetBarcodeType barcode in
  if String.eqb ty "EAN-13"
  then <["country_code" := VString (getEAN13CountryCode barcode)]> info
  else if String.eqb ty "UPC-A"
  then <["manufacturer_code" := VString (getUPCAManufacturerCode barcode)]> info
  else if String.eqb ty "产品条码"
  then <["product_id" := VString (TrimPrefix barcode "PRD")]> info
  else if String.eqb ty "批次条码"
  then <["lot_number" := VString (TrimPrefix barcode "LOT")]> info
  else if String.eqb ty "序列号条码"
  then <["serial_number" := VString (TrimPrefix barcode "SN")]> info
  else info.

(** The ten digit characters, and the thousand three-digit strings. *)
Definition digit_runes : list ascii :=
  ["0"; "1"; "2"; "3"; "4"; "5"; "6"; "7"; "8"; "9"]%char.

Definition digit_triples : list string :=
  flat_map (fun a => flat_map (fun b => map (fun c =>
    String a (String b (String c EmptyString))) digit_runes) digit_runes)
    digit_runes.

(** The messages of [generateMessage] for the four numeric types. *)
Definition numericMessage (ty : string) : string :=
  if String.eqb ty "EAN-13" then "识别为EAN-13条码，正在验证..."
  else if String.eqb ty "UPC-A" then "识别为UPC-A条码，正在处理..."
  else if String.eqb ty "EAN-8" then "识别为EAN-8条码，正在处理..."
  else "识别为ITF-14条码，正在处理...".

Definition numeric_types : list string := ["EAN-8"; "UPC-A"; "EAN-13"; "ITF-14"].

(** The characters [ValidateBarcode] accepts, and those of [isAlphaNumeric]. *)
Definition legal_chars : string :=
  "0123456789ABCDEFGHIJKLMNOPQRSTUVWXYZabcdefghijklmnopqrstuvwxyz-._/\:;[]()+= ".

Definition alnum_chars : string :=
  "0123456789ABCDEFGHIJKLMNOPQRSTUVWXYZabcdefghijklmnopqrstuvwxyz-.".

(** Every character of [s] occurs in [allowed]. *)
Definition chars_in (allowed s : string) : Prop :=
  Forall (fun r => In r (list_ascii_of_string allowed)) (list_ascii_of_string s).

End Barcode.

(* ===================================================================== *)
(** ** Package handlers: [BarcodeHandler] *)
(* ===================================================================== *)

Module Handlers.

(** [BarcodeHandler.HandleBarcode] builds the payload with
    [Processor.ProcessBarcode], hands it to [Hub.BroadcastBarcode] and returns
    a nil error.  The value below is the payload it hands over; the clock
    reading of [ProcessBarcode] is taken to be the one of the hook callback
    that called it. *)
Definition HandleBarcode (content : string) (now : Z) : Barcode.BarcodeData :=
  Barcode.ProcessBarcode content now.

End Handlers.

(* ===================================================================== *)
(** ** Package scanner: [Hook] *)
(* ===================================================================== *)

Module Scanner.

Local Open Scope Z_scope.

Definition WM_KEYDOWN : Z := 0x0100.
Definition HC_ACTION : Z := 0.
Definition VK_RETURN : Z := 0x0D.

(** *** [time.Time] and [time.Duration]

    A [time.Time] is a number of nanoseconds on one clock axis (Unix epoch);
    a [time.Duration] is a signed 64-bit number of nanoseconds. *)

Definition maxDuration : Z := 2 ^ 63 - 1.
Definition minDuration : Z := - 2 ^ 63.

(** [t.Sub(u)]: the difference, saturated to the range of a Duration. *)
Definition Sub (t u : Z) : Z :=
  let d := t - u in
  if d >? maxDuration then maxDuration
  else if d <? minDuration then minDuration
  else d.

(** [d.Milliseconds()]: integer division, truncated toward zero. *)
Definition Milliseconds (d : Z) : Z := Z.quot d 1000000.

(** The zero [time.Time] (January 1, year 1, 00:00 UTC), the value of
    [lastKeyTime] in a Hook made by [NewHook]. *)
Definition zeroTime : Z := - 62135596800 * 1000000000.

(** [config.ScannerConfig]; Go [int] fields. *)
Record ScannerConfig := mkScannerConfig {
  TimeoutMS : Z;
  MinLength : Z;
  MaxLength : Z;
  EnableHook : bool
}.

(** The values [setDefaults] gives to the scanner section. *)
Definition defaultConfig : ScannerConfig :=
  {| TimeoutMS := 100; MinLength := 3; MaxLength := 50; EnableHook := true |}.

(** The [BarcodeHandler] interface value held by a Hook: [None] is nil,
    [Some f] an implementation whose [HandleBarcode] produces [f barcode now]. *)
Definition BarcodeHandler : Type := string -> Z -> Barcode.BarcodeData.

(** [Hook], without the OS handle and the logger. *)
Record Hook := mkHook {
  barcodeBuffer : string;
  lastKeyTime : Z;
  isRunning : bool;
  config : ScannerConfig;
  handler : option BarcodeHandler
}.

(** [NewHook]. *)
Definition NewHook (cfg : ScannerConfig) (hd : option BarcodeHandler) : Hook :=
  {| barcodeBuffer := ""; lastKeyTime := zeroTime; isRunning := false;
     config := cfg; handler := hd |}.

(** One call of the hook procedure by the OS: its arguments, the virtual key
    code read through [lParam], and the reading of [time.Now()]. *)
Record KeyEvent := mkKeyEvent {
  nCode : Z;
  wParam : Z;
  vkCode : Z;
  now : Z
}.

(** A key-down notification. *)
Definition keydown (vk t : Z) : KeyEvent :=
  {| nCode := HC_ACTION; wParam := WM_KEYDOWN; vkCode := vk; now := t |}.

(** [isCharacterKey]. *)
Definition isCharacterKey (vkCode : Z) : bool :=
  ((0x30 <=? vkCode) && (vkCode <=? 0x39))
  || ((0x41 <=? vkCode) && (vkCode <=? 0x5A))
  || ((0x60 <=? vkCode) && (vkCode <=? 0x69))
  || (vkCode =? 0xBD) || (vkCode =? 0xBB) || (vkCode =? 0xDB)
  || (vkCode =? 0xDD) || (vkCode =? 0xDC) || (vkCode =? 0xBA)
  || (vkCode =? 0xDE) || (vkCode =? 0xBC) || (vkCode =? 0xBE)
  || (vkCode =? 0xBF).

(** The conversion [byte(x)]: the low eight bits. *)
Definition byte (x : Z) : ascii := ascii_of_N (Z.to_N (x mod 256)).

(** [getCharFromVirtualKey]; the zero byte stands for "no character". *)
Definition getCharFromVirtualKey (vkCode : Z) : ascii :=
  if (0x30 <=? vkCode) && (vkCode <=? 0x39) then byte vkCode
  else if (0x41 <=? vkCode) && (vkCode <=? 0x5A) then byte vkCode
  else if (0x60 <=? vkCode) && (vkCode <=? 0x69) then byte (vkCode - 0x60 + 0x30)
  else if vkCode =? 0xBD then "-"%char
  else if vkCode =? 0xBB then "="%char
  else if vkCode =? 0xDB then "["%char
  else if vkCode =? 0xDD then "]"%char
  else if vkCode =? 0xDC then "\"%char
  else if vkCode =? 0xBA then ";"%char
  else if vkCode =? 0xDE then "'"%char
  else if vkCode =? 0xBC then ","%char
  else if vkCode =? 0xBE then "."%char
  else if vkCode =? 0xBF then "/"%char
  else zero.

(** [strings.Builder]: [Reset] and [WriteByte] on the Hook's buffer. *)
Definition Reset (h : Hook) : Hook :=
  {| barcodeBuffer := ""; lastKeyTime := lastKeyTime h; isRunning := isRunning h;
     config := config h; handler := handler h |}.

Definition WriteByte (h : Hook) (ch : ascii) : Hook :=
  {| barcodeBuffer := barcodeBuffer h +:+ String ch EmptyString;
     lastKeyTime := lastKeyTime h; isRunning := isRunning h;
     config := config h; handler := handler h |}.

Definition setLastKeyTime (h : Hook) (t : Z) : Hook :=
  {| barcodeBuffer := barcodeBuffer h; lastKeyTime := t; isRunning := isRunning h;
     config := config h; handler := handler h |}.

(** [len(barcode)] as a Go [int]. *)
Definition len (s : string) : Z := Z.of_nat (String.length s).

(** The gap the callback measures, in whole milliseconds. *)
Definition timeDiff (h : Hook) (ev : KeyEvent) : Z :=
  Milliseconds (Sub (now ev) (lastKeyTime h)).

(** [keyboardHookProc]: the new Hook state and the payloads handed to the
    handler during the call (none or one).  The value returned to the OS,
    the result of [CallNextHookEx], is not modelled. *)
Definition keyboardHookProc (h : Hook) (ev : KeyEvent)
  : Hook * list Barcode.BarcodeData :=
  if (HC_ACTION <=? nCode ev) && (wParam ev =? WM_KEYDOWN) then
    let vkCode := vkCode ev in
    let currentTime := now ev in
    let h1 := if timeDiff h ev >? TimeoutMS (config h) then Reset h else h in
    let h2 := setLastKeyTime h1 currentTime in
    if isCharacterKey vkCode then
      let ch := getCharFromVirtualKey vkCode in
      if negb (Barcode.code ch =? 0)%N then (WriteByte h2 ch, [])
      else (h2, [])
    else if vkCode =? VK_RETURN then
      let barcode := barcodeBuffer h2 in
      let emitted :=
        if (len barcode >=? MinLength (config h2))
           && (len barcode <=? MaxLength (config h2))
        then match handler h2 with
             | Some hd => [hd barcode currentTime]
             | None => []
             end
        else [] in
      (Reset h2, emitted)
    else (h2, [])
  else (h, []).

(** The hook procedure applied to a stream of events, in arrival order. *)
Fixpoint run (h : Hook) (evs : list KeyEvent) : Hook * list Barcode.BarcodeData :=
  match evs with
  | [] => (h, [])
  | ev :: rest =>
      let '(h1, out1) := keyboardHookProc h ev in
      let '(h2, out2) := run h1 rest in
      (h2, (out1 ++ out2)%list)
  end.

(** The Hook as [app.New] builds it: the configured scanner section and the
    [handlers.BarcodeHandler]. *)
Definition appHook (cfg : ScannerConfig) : Hook :=
  NewHook cfg (Some Handlers.HandleBarcode).

(** Key-down events for a list of virtual key codes at the given times. *)
Definition keydowns (vks ts : list Z) : list KeyEvent :=
  map (fun p => keydown (fst p) (snd p)) (combine vks ts).

(** The virtual key code of a digit or capital letter is its ASCII code. *)
Definition vk_of (c : ascii) : Z := Z.of_N (N_of_ascii c).

(** One millisecond, in nanoseconds. *)
Definition ms : Z := 1000000.

(** A notification that passes the guard of the hook procedure. *)
Definition is_keydown (ev : KeyEvent) : Prop :=
  HC_ACTION <= nCode ev /\ wParam ev = WM_KEYDOWN.

(** The Hook with another buffer content. *)
Definition with_buffer (h : Hook) (b : string) : Hook :=
  {| barcodeBuffer := b; lastKeyTime := lastKeyTime h; isRunning := isRunning h;
     config := config h; handler := handler h |}.

(** The buffer content an event finds once the timeout rule has been
    applied to it: the completion candidate when the event is a terminator. *)
Definition candidate (h : Hook) (ev : KeyEvent) : string :=
  if timeDiff h ev >? TimeoutMS (config h) then "" else barcodeBuffer h.

(** The candidate length is within the configured bounds. *)
Definition in_range (cfg : ScannerConfig) (s : string) : Prop :=
  MinLength cfg <= len s <= MaxLength cfg.

(** The characters typed by a list of virtual key codes. *)
Definition chars (vks : list Z) : string :=
  string_of_list_ascii (map getCharFromVirtualKey vks).

(** Concrete states and events used to exercise the statements: the Hook
    of the application holding "ABC" or "123", a terminator, and the key '4'
    pressed half a second after the zero time. *)
Definition hookABC : Hook := with_buffer (appHook defaultConfig) "ABC".
Definition hook123 : Hook := with_buffer (appHook defaultConfig) "123".
Definition returnAt5 : KeyEvent := keydown VK_RETURN 5.
Definition key4Late : KeyEvent := keydown 0x34 (zeroTime + 500 * ms).
Definition returnLate : KeyEvent := keydown VK_RETURN (zeroTime + 510 * ms).
Definition paced14 : list Z :=
  map (fun i => i * (50 * ms)) [0; 1; 2; 3; 4; 5; 6; 7; 8; 9; 10; 11; 12; 13].

(** Consecutive clock readings are at most [d] nanoseconds apart. *)
Fixpoint apart_le (d : Z) (ts : list Z) : Prop :=
  match ts with
  | t :: rest =>
      match rest with
      | t' :: _ => t' - t <= d /\ apart_le d rest
      | [] => True
      end
  | [] => True
  end.

(** *** Vocabulary for further statements about the Hook *)

(** The characters [getCharFromVirtualKey] can produce. *)
Definition hookRune (r : ascii) : bool :=
  ((Barcode.code "0" <=? Barcode.code r)%N && (Barcode.code r <=? Barcode.code "9")%N)
  || ((Barcode.code "A" <=? Barcode.code r)%N && (Barcode.code r <=? Barcode.code "Z")%N)
  || existsb (fun c => (Barcode.code r =? Barcode.code c)%N)
       ["-"; "="; "["; "]"; "\"; ";"; "'"; ","; "."; "/"]%char.

Fixpoint hookString (s : string) : bool :=
  match s with
  | EmptyString => true
  | String r s' => hookRune r && hookString s'
  end.

(** The string contains a quote or a comma. *)
Fixpoint hasQuoteOrComma (s : string) : bool :=
  match s with
  | EmptyString => false
  | String r s' =>
      (Barcode.code r =? Barcode.code "'")%N || (Barcode.code r =? Barcode.code ",")%N
      || hasQuoteOrComma s'
  end.

(** The notification passes the guard of the hook procedure. *)
Definition passes_guard (ev : KeyEvent) : bool :=
  (HC_ACTION <=? nCode ev) && (wParam ev =? WM_KEYDOWN).

(** A terminator key-down. *)
Definition is_return_keydown (ev : KeyEvent) : bool :=
  passes_guard ev && (vkCode ev =? VK_RETURN).

(** The same notification with a top-row digit key replaced by the key of
    the same digit on the numeric keypad. *)
Definition to_numpad (ev : KeyEvent) : KeyEvent :=
  {| nCode := nCode ev; wParam := wParam ev;
     vkCode := if (0x30 <=? vkCode ev) && (vkCode ev <=? 0x39)
               then vkCode ev + 0x30 else vkCode ev;
     now := now ev |}.

(** The keys 'A', ',', 'B' and the terminator, ten milliseconds apart. *)
Definition commaScan : list KeyEvent :=
  keydowns [0x41; 0xBC; 0x42; VK_RETURN] [0; 10 * ms; 20 * ms; 30 * ms].

End Scanner.

(* ===================================================================== *)
(** ** Package websocket: [Hub] *)
(* ===================================================================== *)

Module Websocket.

(** *** Buffered channels

    A channel made by [make(chan T, n)]: the queued values (oldest first),
    the capacity and the closed flag. *)
Record Chan (A : Type) := mkChan {
  buf : list A;
  cap : nat;
  closed : bool
}.
Arguments mkChan {A} _ _ _.
Arguments buf {A} _.
Arguments cap {A} _.
Arguments closed {A} _.

Definition make {A} (n : nat) : Chan A :=
  {| buf := []; cap := n; closed := false |}.

(** What a function of the Hub can do: return, panic, or wait because no
    communication of its [select] is ready. *)
Inductive Outcome (A : Type) :=
| Done (a : A)
| Panics
| Waits.
Arguments Done {A} _.
Arguments Panics {A}.
Arguments Waits {A}.

(** A send case in a [select] with a [default]: the send proceeds when the
    buffer has room, panics on a closed channel, and otherwise the default
    case is taken. *)
Inductive TrySend (A : Type) :=
| Sent (ch : Chan A)
| WouldBlock
| SendOnClosed.
Arguments Sent {A} _.
Arguments WouldBlock {A}.
Arguments SendOnClosed {A}.

(** The channel after one more value has been queued, and after [close]. *)
Definition enqueue {A} (ch : Chan A) (v : A) : Chan A :=
  {| buf := buf ch ++ [v]; cap := cap ch; closed := closed ch |}.

Definition shut {A} (ch : Chan A) : Chan A :=
  {| buf := buf ch; cap := cap ch; closed := true |}.

Definition try_send {A} (ch : Chan A) (v : A) : TrySend A :=
  if closed ch then SendOnClosed
  else if (length (buf ch) <? cap ch)%nat then Sent (enqueue ch v)
  else WouldBlock.

(** [close(ch)]: closing a closed channel panics ([None]). *)
Definition close {A} (ch : Chan A) : option (Chan A) :=
  if closed ch then None else Some (shut ch).

(** *** Messages *)

(** The values stored in [Message.Data] (an [interface{}]) by this package. *)
Inductive DataValue :=
| DataMap (kvs : list (string * string))
| DataBarcode (d : Barcode.BarcodeData).

(** [Message]; a nil [Data] is [None]. *)
Record Message := mkMessage {
  Type_ : string;
  Data : option DataValue;
  Time : Z
}.

(** The top-level keys [json.Marshal] writes for a [Message]: [data] carries
    [omitempty] and is left out exactly when the interface value is nil. *)
Definition json_keys (m : Message) : list string :=
  ["type"] ++ match Data m with None => [] | Some _ => ["data"] end ++ ["time"].

(** A [[]byte] travelling on a channel: the encoding of a message, or the nil
    slice (what a receive on a closed, drained channel yields). *)
Inductive Bytes :=
| Marshal (m : Message)
| nilBytes.

Definition greeting : string := "WebSocket连接成功，等待扫码数据...".

(** The welcome message built in the register case of [Run]. *)
Definition welcomeMsg (now : Z) : Message :=
  {| Type_ := "welcome";
     Data := Some (DataMap [("message", greeting)]);
     Time := now |}.

(** The message built by [BroadcastBarcode]. *)
Definition barcodeMsg (d : Barcode.BarcodeData) (now : Z) : Message :=
  {| Type_ := "barcode"; Data := Some (DataBarcode d); Time := now |}.

(** *** The Hub *)

Inductive Level := Debug | Info | Warn | Error.

(** A call to the logger: level, text and the [client_count] field if any. *)
Record LogEntry := mkLogEntry {
  level : Level;
  text : string;
  client_count : option nat
}.

(** A [*Client] is an address. *)
Definition ClientPtr : Type := nat.

(** [Hub]: the membership map, the inbound broadcast channel, and the store
    holding the [send] channel of every allocated [Client]; [logs] records
    the logger calls, oldest first.  The [register] and [unregister] channels
    are unbuffered: a request on them is an argument of the [Run] case that
    receives it. *)
Record Hub := mkHub {
  clients : gmap ClientPtr bool;
  broadcast : Chan Bytes;
  send : gmap ClientPtr (Chan Bytes);
  logs : list LogEntry
}.

(** [NewHub]. *)
Definition NewHub : Hub :=
  {| clients := ∅; broadcast := make 256; send := ∅; logs := [] |}.

Definition set_clients (h : Hub) (cl : gmap ClientPtr bool) : Hub :=
  {| clients := cl; broadcast := broadcast h; send := send h; logs := logs h |}.

Definition set_broadcast (h : Hub) (ch : Chan Bytes) : Hub :=
  {| clients := clients h; broadcast := ch; send := send h; logs := logs h |}.

Definition set_send (h : Hub) (c : ClientPtr) (ch : Chan Bytes) : Hub :=
  {| clients := clients h; broadcast := broadcast h;
     send := <[c := ch]> (send h); logs := logs h |}.

Definition log (h : Hub) (e : LogEntry) : Hub :=
  {| clients := clients h; broadcast := broadcast h; send := send h;
     logs := logs h ++ [e] |}.

(** [GetClientCount]. *)
Definition GetClientCount (h : Hub) : nat := size (clients h).

(** The statement
    [select { case client.send <- data: default: close(client.send); delete(h.clients, client) }]
    shared by the register and broadcast cases of [Run]. *)
Definition send_or_drop (data : Bytes) (c : ClientPtr) (h : Hub) : Outcome Hub :=
  match send h !! c with
  | None => Panics
  | Some ch =>
      match try_send ch data with
      | Sent ch' => Done (set_send h c ch')
      | WouldBlock =>
          match close ch with
          | Some ch' => Done (set_clients (set_send h c ch') (delete c (clients h)))
          | None => Panics
          end
      | SendOnClosed => Panics
      end
  end.

(** [Run], case [client := <-h.register]. *)
Definition Run_register (c : ClientPtr) (now : Z) (h : Hub) : Outcome Hub :=
  let h1 := set_clients h (<[c := true]> (clients h)) in
  let h2 := log h1 {| level := Info; text := "新客户端连接";
                      client_count := Some (size (clients h1)) |} in
  send_or_drop (Marshal (welcomeMsg now)) c h2.

(** [Run], case [client := <-h.unregister]. *)
Definition Run_unregister (c : ClientPtr) (h : Hub) : Outcome Hub :=
  match clients h !! c with
  | Some _ =>
      let h1 := set_clients h (delete c (clients h)) in
      match send h1 !! c with
      | None => Panics
      | Some ch =>
          match close ch with
          | Some ch' =>
              Done (log (set_send h1 c ch')
                        {| level := Info; text := "客户端断开连接";
                           client_count := Some (size (clients h1)) |})
          | None => Panics
          end
      end
  | None => Done h
  end.

(** The loop [for client := range h.clients] of the broadcast case.  The
    clients are visited in the order the map enumerates them; the body only
    deletes the entry being visited. *)
Definition fanout_step (message : Bytes) (acc : Outcome Hub) (c : ClientPtr)
  : Outcome Hub :=
  match acc with
  | Done h => send_or_drop message c h
  | Panics => Panics
  | Waits => Waits
  end.

Definition fanout (message : Bytes) (h : Hub) : Outcome Hub :=
  foldl (fanout_step message) (Done h) (map_to_list (clients h)).*1.


(** [Run], case [message := <-h.broadcast]: ready when a message is queued
    or the channel is closed (the receive then yields the nil slice). *)
Definition Run_broadcast (h : Hub) : Outcome Hub :=
  match buf (broadcast h) with
  | message :: rest =>
      fanout message
        (set_broadcast h {| buf := rest; cap := cap (broadcast h);
                            closed := closed (broadcast h) |})
  | [] => if closed (broadcast h) then fanout nilBytes h else Waits
  end.

(** [HandleWebSocket] after a successful upgrade: a new [Client] with
    [send: make(chan []byte, 256)] at a fresh address, handed to the register
    case of [Run].  The result carries the address of the new client. *)
Definition newClient (h : Hub) : ClientPtr := fresh (dom (send h)).

Definition HandleWebSocket (now : Z) (h : Hub) : ClientPtr * Outcome Hub :=
  let c := newClient h in
  (c, Run_register c now (set_send h c (make 256))).

(** [BroadcastBarcode]; [json.Marshal] does not fail on a [BarcodeData]. *)
Definition BroadcastBarcode (barcodeData : Barcode.BarcodeData) (now : Z) (h : Hub)
  : Outcome Hub :=
  let data := Marshal (barcodeMsg barcodeData now) in
  match try_send (broadcast h) data with
  | Sent ch' =>
      Done (log (set_broadcast h ch')
                {| level := Debug; text := "条码数据已广播";
                   client_count := Some (size (clients h)) |})
  | WouldBlock =>
      Done (log h {| level := Warn; text := "广播通道已满，丢弃消息";
                     client_count := None |})
  | SendOnClosed => Panics
  end.


(** Every live client has an allocated, open [send] channel. *)
Definition client_open (h : Hub) (c : ClientPtr) : Prop :=
  match send h !! c with
  | Some ch => closed ch = false
  | None => False
  end.

Definition hub_wf (h : Hub) : Prop :=
  closed (broadcast h) = false /\
  map_Forall (fun c _ => client_open h c) (clients h).

#[global] Instance client_open_dec h c : Decision (client_open h c).
Proof. unfold client_open. destruct (send h !! c); apply _. Defined.

#[global] Instance hub_wf_dec h : Decision (hub_wf h).
Proof. unfold hub_wf. apply _. Defined.




(** A message that carries no data payload. *)
Definition carries_no_data (m : Message) : Prop := Data m = None.

(** The clients the broadcast loop visits. *)
Definition range_clients (h : Hub) : list ClientPtr := (map_to_list (clients h)).*1.

(** Three subscribers, the second with a queue of capacity one that is
    already full, and one message waiting on the inbound channel. *)
Definition threeClients : Hub :=
  {| clients := {[ 0%nat := true; 1%nat := true; 2%nat := true ]};
     broadcast := {| buf := [Marshal (barcodeMsg (Barcode.ProcessBarcode "PRD99" 7) 8)];
                     cap := 256; closed := false |};
     send := {[ 0%nat := make 256;
                1%nat := {| buf := [nilBytes]; cap := 1; closed := false |};
                2%nat := make 256 ]};
     logs := [] |}.

(** A Hub whose inbound channel holds 256 messages. *)
Definition saturatedHub : Hub :=
  set_broadcast NewHub {| buf := replicate 256 nilBytes; cap := 256; closed := false |}.

(** A queue with room, and a full one. *)
Definition has_room {A} (ch : Chan A) : Prop := (length (buf ch) < cap ch)%nat.
Definition is_full {A} (ch : Chan A) : Prop := (cap ch ≤ length (buf ch))%nat.

(** *** Shutdown *)

(** The body of the loop of [Close]: the transport is closed (not modelled)
    and the queue of the client is closed. *)
Definition close_step (acc : Outcome Hub) (c : ClientPtr) : Outcome Hub :=
  match acc with
  | Done h =>
      match send h !! c with
      | Some ch =>
          match close ch with
          | Some ch' => Done (set_send h c ch')
          | None => Panics
          end
      | None => Panics
      end
  | Panics => Panics
  | Waits => Waits
  end.

(** [Close]: every live client's queue is closed, then the inbound channel;
    the membership map is not touched.  The [register] and [unregister]
    channels it closes as well carry no state here. *)
Definition Close (h : Hub) : Outcome Hub :=
  match foldl close_step (Done h) (map_to_list (clients h)).*1 with
  | Done h1 =>
      match close (broadcast h1) with
      | Some b =>
          Done (log (set_broadcast h1 b)
                    {| level := Info; text := "WebSocket Hub 已关闭";
                       client_count := None |})
      | None => Panics
      end
  | Panics => Panics
  | Waits => Waits
  end.

(** The live clients whose queue has room. *)
Definition roomy (h : Hub) (c : ClientPtr) : Prop :=
  match send h !! c with
  | Some ch => has_room ch
  | None => False
  end.

#[global] Instance roomy_dec h c : Decision (roomy h c).
Proof.
  unfold roomy. destruct (send h !! c); [| apply _].
  unfold has_room. apply _.
Defined.


End Websocket.

(* ===================================================================== *)
(** ** Package service: the dispatch of [BarcodeService] *)
(* ===================================================================== *)

Module Service.

(** The five handlers [executeBusinessLogic] chooses from; each of them logs
    one line and returns a nil error. *)
Inductive BusinessHandler :=
| handleProductBarcode
| handleLotBarcode
| handleSerialBarcode
| handleStandardBarcode
| handleGenericBarcode.

(** [executeBusinessLogic]: the handler that is called. *)
Definition executeBusinessLogic (barcodeData : Barcode.BarcodeData) : BusinessHandler :=
  if Barcode.HasPrefix (Barcode.Content barcodeData) "PRD" then handleProductBarcode
  else if Barcode.HasPrefix (Barcode.Content barcodeData) "LOT" then handleLotBarcode
  else if Barcode.HasPrefix (Barcode.Content barcodeData) "SN" then handleSerialBarcode
  else if String.eqb (Barcode.Type_ barcodeData) "EAN-13"
          || String.eqb (Barcode.Type_ barcodeData) "UPC-A"
       then handleStandardBarcode
  else handleGenericBarcode.

End Service.

(* ===================================================================== *)
(** ** The standalone program ([package main]) *)
(* ===================================================================== *)

Module Standalone.

Local Open Scope Z_scope.

Definition BARCODE_TIMEOUT_MS : Z := 100.
Definition MIN_BARCODE_LENGTH : Z := 3.

(** [isAllDigits], [isAlphaNumeric], [isCharacterKey] and
    [getCharFromVirtualKey] of the standalone program have the bodies of the
    methods of the same names; the definitions of those are used. *)

(** [getBarcodeType] of the standalone program. *)
Definition getBarcodeType (barcode : string) : string :=
  if String.eqb barcode "" then "未知"
  else if (String.length barcode =? 8)%nat && Barcode.isAllDigits barcode then "EAN-8"
  else if (String.length barcode =? 12)%nat && Barcode.isAllDigits barcode then "UPC-A"
  else if (String.length barcode =? 13)%nat && Barcode.isAllDigits barcode then "EAN-13"
  else if (String.length barcode =? 14)%nat && Barcode.isAllDigits barcode then "ITF-14"
  else if Barcode.isAlphaNumeric barcode then "Code 128"
  else "其他类型".

(** The data [processBarcode] builds and pushes to the clients. *)
Definition processBarcode (barcode : string) (timestamp : Z) : Barcode.BarcodeData :=
  {| Barcode.Content := barcode;
     Barcode.Length := String.length barcode;
     Barcode.Type_ := getBarcodeType barcode;
     Barcode.Timestamp := timestamp;
     Barcode.Status := "success";
     Barcode.Message :=
       if Barcode.HasPrefix barcode "PRD" then "识别为产品条码，正在查询产品信息..."
       else if (String.length barcode =? 13)%nat && Barcode.isAllDigits barcode
            then "识别为EAN-13条码，正在验证..."
       else if (String.length barcode =? 12)%nat && Barcode.isAllDigits barcode
            then "识别为UPC-A条码，正在处理..."
       else "通用条码，正在记录..." |}.

(** The global variables the hook callback works on. *)
Record Globals := mkGlobals {
  barcodeBuffer : string;
  lastKeyTime : Z
}.

(** [keyboardHookProc] of the standalone program: the new globals and the
    barcodes handed to [processBarcode] during the call. *)
Definition keyboardHookProc (g : Globals) (ev : Scanner.KeyEvent)
  : Globals * list string :=
  if (Scanner.HC_ACTION <=? Scanner.nCode ev)
     && (Scanner.wParam ev =? Scanner.WM_KEYDOWN) then
    let vkCode := Scanner.vkCode ev in
    let currentTime := Scanner.now ev in
    let timeDiff := Scanner.Milliseconds (Scanner.Sub currentTime (lastKeyTime g)) in
    let buffer1 := if timeDiff >? BARCODE_TIMEOUT_MS then "" else barcodeBuffer g in
    if Scanner.isCharacterKey vkCode then
      let ch := Scanner.getCharFromVirtualKey vkCode in
      if negb (Barcode.code ch =? 0)%N
      then ({| barcodeBuffer := buffer1 +:+ String ch EmptyString;
               lastKeyTime := currentTime |}, [])
      else ({| barcodeBuffer := buffer1; lastKeyTime := currentTime |}, [])
    else if vkCode =? Scanner.VK_RETURN then
      ({| barcodeBuffer := ""; lastKeyTime := currentTime |},
       if Scanner.len buffer1 >=? MIN_BARCODE_LENGTH then [buffer1] else [])
    else ({| barcodeBuffer := buffer1; lastKeyTime := currentTime |}, [])
  else (g, []).

Fixpoint run (g : Globals) (evs : list Scanner.KeyEvent) : Globals * list string :=
  match evs with
  | [] => (g, [])
  | ev :: rest =>
      let '(g1, out1) := keyboardHookProc g ev in
      let '(g2, out2) := run g1 rest in
      (g2, (out1 ++ out2)%list)
  end.

(** The globals that correspond to a Hook. *)
Definition globals_of (h : Scanner.Hook) : Globals :=
  {| barcodeBuffer := Scanner.barcodeBuffer h; lastKeyTime := Scanner.lastKeyTime h |}.

End Standalone.

(* ===================================================================== *)
(** ** Facts about the classifier *)
(* ===================================================================== *)

Module BarcodeFacts.
Import Barcode.

Lemma isDigitRune_spec r :
  isDigitRune r = true <-> (48 <= N_of_ascii r <= 57)%N.
Proof.
  unfold isDigitRune, code. change (N_of_ascii "0") with 48%N.
  change (N_of_ascii "9") with 57%N.
  rewrite negb_true_iff, orb_false_iff, !N.ltb_ge. tauto.
Qed.

Lemma isAllDigits_spec s : isAllDigits s = true <-> digits_only s.
Proof.
  unfold digits_only. induction s as [|r s IH]; simpl.
  - split; [constructor | reflexivity].
  - destruct (isDigitRune r) eqn:E; simpl.
    + rewrite IH. split.
      * intros H. constructor; [by apply isDigitRune_spec | done].
      * by inversion 1.
    + split; [discriminate |]. inversion 1 as [|? ? Hr _]; subst.
      apply isDigitRune_spec in Hr. congruence.
Qed.

Lemma eqb_empty_length s : (0 < String.length s)%nat -> String.eqb s "" = false.
Proof. destruct s; simpl; [lia | reflexivity]. Qed.

(** A digit is alphanumeric, so an all-digit content always passes
    [isAlphaNumeric]. *)
Lemma isAllDigits_isAlphaNumeric s : isAllDigits s = true -> isAlphaNumeric s = true.
Proof.
  induction s as [|r s IH]; simpl; [done |].
  destruct (isDigitRune r) eqn:E; simpl; [| discriminate].
  intros H. apply isDigitRune_spec in E.
  assert (isAlphaNumericRune r = true) as ->; [| by apply IH].
  unfold isAlphaNumericRune, code. change (N_of_ascii "0") with 48%N.
  change (N_of_ascii "9") with 57%N.
  destruct E as [E1 E2]. apply N.leb_le in E1, E2. by rewrite E1, E2.
Qed.

Lemma prefix_split p : forall s, String.prefix p s = true -> exists s', s = p +:+ s'.
Proof.
  induction p as [|a p IH]; intros s H.
  - exists s. reflexivity.
  - destruct s as [|b s]; cbn [String.prefix] in H; [discriminate |].
    destruct (ascii_dec a b) as [<-|]; [| discriminate].
    destruct (IH _ H) as [s' ->]. exists s'. reflexivity.
Qed.

(** What the switch does with a content that starts with "PRD": the prefix
    case is reached only when the alphanumeric case before it fails. *)
Lemma GetBarcodeType_PRD s :
  HasPrefix s "PRD" = true ->
  GetBarcodeType s = if isAlphaNumeric s then "Code 128" else "产品条码".
Proof.
  intros H. pose proof H as H'. unfold HasPrefix in H.
  apply prefix_split in H as [s' ->].
  unfold GetBarcodeType, GetBarcodeType_switch. rewrite H'.
  change (isAllDigits ("PRD" +:+ s')) with false.
  rewrite !andb_false_r. reflexivity.
Qed.

(** C1 (evaluation at the failing inputs): a content that starts with "PRD"
    and is made of letters and digits is typed "Code 128", not product
    barcode, because the alphanumeric case comes before the prefix cases in
    the switch; [generateMessage], which tests the prefixes first, announces
    a product barcode for the same content. *)
Theorem PRD_prefix_shadowed_by_alphanumeric :
  GetBarcodeType "PRD99" = "Code 128"
  /\ GetBarcodeType "PRD1234567890" = "Code 128"
  /\ GetBarcodeType "PRD99" <> "产品条码"
  /\ generateMessage "PRD99" = "识别为产品条码，正在查询产品信息..."
  /\ Type_ (ProcessBarcode "PRD99" 0) = "Code 128"
  /\ GetBarcodeType "PRD/99" = "产品条码".
Proof. repeat split; try reflexivity. discriminate. Qed.

(** C10: the empty content is typed "unknown", a tag different from every
    tag the switch can return; the guard comes first, for the switch alone
    would type the empty content "Code 128" ([isAlphaNumeric] holds of it
    vacuously); and no other content is typed "unknown". *)
Theorem GetBarcodeType_empty_is_unknown :
  GetBarcodeType "" = "未知"
  /\ isAlphaNumeric "" = true
  /\ GetBarcodeType_switch "" = "Code 128"
  /\ ~ In "未知" listed_types
  /\ (forall s, In (GetBarcodeType_switch s) listed_types)
  /\ (forall s, GetBarcodeType s = "未知" <-> s = "").
Proof.
  assert (Hsw : forall s, In (GetBarcodeType_switch s) listed_types).
  { intros s. unfold GetBarcodeType_switch, listed_types.
    repeat match goal with
           | |- context [if ?b then _ else _] => destruct b
           end; simpl; tauto. }
  assert (Hno : ~ In "未知" listed_types).
  { unfold listed_types. simpl. intros H.
    repeat destruct H as [H|H]; try discriminate H. exact H. }
  repeat split; try reflexivity; try assumption.
  - intros H. unfold GetBarcodeType in H.
    destruct (String.eqb s "") eqn:E; [by apply String.eqb_eq in E |].
    exfalso. apply Hno. rewrite <- H. apply Hsw.
  - intros ->. reflexivity.
Qed.

(** The four numeric rules, on any all-digit content. *)
Lemma digits_classified s :
  digits_only s ->
  (String.length s = 8%nat -> GetBarcodeType s = "EAN-8")
  /\ (String.length s = 12%nat -> GetBarcodeType s = "UPC-A")
  /\ (String.length s = 13%nat -> GetBarcodeType s = "EAN-13")
  /\ (String.length s = 14%nat -> GetBarcodeType s = "ITF-14").
Proof.
  intros Hd. apply isAllDigits_spec in Hd.
  unfold GetBarcodeType, GetBarcodeType_switch.
  repeat split; intros Hl; rewrite eqb_empty_length by lia;
    rewrite Hd, Hl; reflexivity.
Qed.

End BarcodeFacts.

(* ===================================================================== *)
(** ** Facts about the keyboard hook *)
(* ===================================================================== *)

Module ScannerFacts.
Import Scanner.
Local Open Scope Z_scope.

(** *** Durations *)

Lemma Sub_exact t u d :
  t - u = d -> minDuration <= d <= maxDuration -> Sub t u = d.
Proof.
  intros <- [Hlo Hhi]. unfold Sub. cbv zeta.
  destruct (Z.gtb_spec (t - u) maxDuration); [lia |].
  destruct (Z.ltb_spec (t - u) minDuration); [lia | reflexivity].
Qed.

Lemma Sub_le t u d : t - u <= d -> 0 <= d -> Sub t u <= d.
Proof.
  intros H Hd. unfold Sub. cbv zeta.
  destruct (Z.gtb_spec (t - u) maxDuration); [lia |].
  destruct (Z.ltb_spec (t - u) minDuration); [| lia].
  unfold minDuration. lia.
Qed.

Lemma Milliseconds_le d k : d <= k * ms -> Milliseconds d <= k.
Proof.
  intros H. unfold Milliseconds.
  transitivity (Z.quot (k * ms) 1000000).
  - apply Z.quot_le_mono; [lia | exact H].
  - unfold ms. rewrite Z.quot_mul; lia.
Qed.

Lemma gap_within t u k : t - u <= k * ms -> 0 <= k -> Milliseconds (Sub t u) <= k.
Proof.
  intros H Hk. apply Milliseconds_le, Sub_le; [exact H | unfold ms; lia].
Qed.

(** *** Character keys *)

Lemma code_byte x : 0 <= x < 256 -> Barcode.code (byte x) = Z.to_N x.
Proof.
  intros Hx. unfold Barcode.code, byte. rewrite Z.mod_small by lia.
  apply N_ascii_embedding. lia.
Qed.

Lemma getChar_nonzero vk :
  isCharacterKey vk = true ->
  (Barcode.code (getCharFromVirtualKey vk) =? 0)%N = false.
Proof.
  unfold isCharacterKey, getCharFromVirtualKey.
  destruct ((0x30 <=? vk) && (vk <=? 0x39)) eqn:E1.
  { intros _. apply andb_true_iff in E1 as [?%Z.leb_le ?%Z.leb_le].
    rewrite code_byte by lia. apply N.eqb_neq. lia. }
  destruct ((0x41 <=? vk) && (vk <=? 0x5A)) eqn:E2.
  { intros _. apply andb_true_iff in E2 as [?%Z.leb_le ?%Z.leb_le].
    rewrite code_byte by lia. apply N.eqb_neq. lia. }
  destruct ((0x60 <=? vk) && (vk <=? 0x69)) eqn:E3.
  { intros _. apply andb_true_iff in E3 as [?%Z.leb_le ?%Z.leb_le].
    rewrite code_byte by lia. apply N.eqb_neq. lia. }
  repeat match goal with
         | |- context [if ?b then _ else _] => destruct b; [reflexivity |]
         end.
  simpl. discriminate.
Qed.

(** *** One call of the hook procedure, by kind of notification *)

Lemma step_not_keydown h ev :
  (HC_ACTION <=? nCode ev) && (wParam ev =? WM_KEYDOWN) = false ->
  keyboardHookProc h ev = (h, []).
Proof. intros H. unfold keyboardHookProc. by rewrite H. Qed.

Lemma keydown_guard ev :
  is_keydown ev -> (HC_ACTION <=? nCode ev) && (wParam ev =? WM_KEYDOWN) = true.
Proof.
  intros [H1 H2]. apply andb_true_iff. split; [by apply Z.leb_le | by apply Z.eqb_eq].
Qed.

Lemma step_char h ev :
  is_keydown ev -> isCharacterKey (vkCode ev) = true ->
  keyboardHookProc h ev =
    ({| barcodeBuffer :=
          candidate h ev +:+ String (getCharFromVirtualKey (vkCode ev)) EmptyString;
        lastKeyTime := now ev; isRunning := isRunning h;
        config := config h; handler := handler h |}, []).
Proof.
  intros Hk Hc. unfold keyboardHookProc, candidate.
  rewrite (keydown_guard _ Hk). cbv zeta. rewrite Hc, (getChar_nonzero _ Hc).
  by destruct (timeDiff h ev >? TimeoutMS (config h)).
Qed.

Lemma step_return h ev :
  is_keydown ev -> vkCode ev = VK_RETURN ->
  keyboardHookProc h ev =
    ({| barcodeBuffer := ""; lastKeyTime := now ev; isRunning := isRunning h;
        config := config h; handler := handler h |},
     if (len (candidate h ev) >=? MinLength (config h))
        && (len (candidate h ev) <=? MaxLength (config h))
     then match handler h with
          | Some hd => [hd (candidate h ev) (now ev)]
          | None => []
          end
     else []).
Proof.
  intros Hk Hv. unfold keyboardHookProc, candidate.
  rewrite (keydown_guard _ Hk), Hv. cbv zeta.
  change (isCharacterKey VK_RETURN) with false.
  change (VK_RETURN =? VK_RETURN) with true. cbv iota.
  by destruct (timeDiff h ev >? TimeoutMS (config h)).
Qed.

Lemma step_other h ev :
  is_keydown ev -> isCharacterKey (vkCode ev) = false -> vkCode ev <> VK_RETURN ->
  keyboardHookProc h ev =
    ({| barcodeBuffer := candidate h ev; lastKeyTime := now ev;
        isRunning := isRunning h; config := config h; handler := handler h |}, []).
Proof.
  intros Hk Hc Hv. unfold keyboardHookProc, candidate.
  rewrite (keydown_guard _ Hk). cbv zeta. rewrite Hc.
  apply Z.eqb_neq in Hv. rewrite Hv.
  by destruct (timeDiff h ev >? TimeoutMS (config h)).
Qed.

Lemma candidate_gap h ev :
  timeDiff h ev > TimeoutMS (config h) -> candidate h ev = "".
Proof.
  intros H. unfold candidate.
  destruct (Z.gtb_spec (timeDiff h ev) (TimeoutMS (config h))); [done | lia].
Qed.

Lemma candidate_within h ev :
  timeDiff h ev <= TimeoutMS (config h) -> candidate h ev = barcodeBuffer h.
Proof.
  intros H. unfold candidate.
  destruct (Z.gtb_spec (timeDiff h ev) (TimeoutMS (config h))); [lia | done].
Qed.

(** The configuration and the handler never change. *)
Lemma step_config_handler h ev :
  config (keyboardHookProc h ev).1 = config h
  /\ handler (keyboardHookProc h ev).1 = handler h.
Proof.
  destruct ((HC_ACTION <=? nCode ev) && (wParam ev =? WM_KEYDOWN)) eqn:G.
  - assert (Hk : is_keydown ev).
    { apply andb_true_iff in G as [?%Z.leb_le ?%Z.eqb_eq]. by split. }
    destruct (isCharacterKey (vkCode ev)) eqn:Hc.
    + by rewrite step_char.
    + destruct (Z.eq_dec (vkCode ev) VK_RETURN) as [Hv|Hv].
      * by rewrite step_return.
      * by rewrite step_other.
  - by rewrite step_not_keydown.
Qed.

Lemma run_cons h ev rest :
  run h (ev :: rest) =
    ((run (keyboardHookProc h ev).1 rest).1,
     ((keyboardHookProc h ev).2 ++ (run (keyboardHookProc h ev).1 rest).2)%list).
Proof.
  change (run h (ev :: rest)) with
    (let '(h1, out1) := keyboardHookProc h ev in
     let '(h2, out2) := run h1 rest in (h2, (out1 ++ out2)%list)).
  destruct (keyboardHookProc h ev) as [h1 o1]. cbn [fst snd].
  by destruct (run h1 rest) as [h2 o2].
Qed.

Lemma run_config_handler evs : forall h,
  config (run h evs).1 = config h /\ handler (run h evs).1 = handler h.
Proof.
  induction evs as [|ev rest IH]; intros h; [done |].
  rewrite run_cons. cbn [fst].
  destruct (IH (keyboardHookProc h ev).1) as [-> ->].
  apply step_config_handler.
Qed.

Lemma run_app l1 : forall h l2,
  run h (l1 ++ l2) =
    ((run (run h l1).1 l2).1, ((run h l1).2 ++ (run (run h l1).1 l2).2)%list).
Proof.
  induction l1 as [|ev l1 IH]; intros h l2.
  - cbn [app run fst snd]. by destruct (run h l2).
  - rewrite <- app_comm_cons, !run_cons, IH. cbn [fst snd].
    by rewrite app_assoc.
Qed.

Lemma candidate_empty h ev : barcodeBuffer h = "" -> candidate h ev = "".
Proof. intros H. unfold candidate. rewrite H. by destruct (_ >? _). Qed.

Lemma in_range_b cfg s :
  (len s >=? MinLength cfg) && (len s <=? MaxLength cfg) = true <-> in_range cfg s.
Proof.
  unfold in_range. rewrite andb_true_iff, Z.geb_le, Z.leb_le. tauto.
Qed.

Lemma keydown_is_keydown vk t : is_keydown (keydown vk t).
Proof. split; [cbn; unfold HC_ACTION; lia | reflexivity]. Qed.

Lemma append_cons x (a b : string) : String x a +:+ b = String x (a +:+ b).
Proof. reflexivity. Qed.

Lemma append_nil_r (a : string) : a +:+ "" = a.
Proof. induction a as [|x a IH]; [done | by rewrite append_cons, IH]. Qed.

Lemma append_assoc (a b c : string) : (a +:+ b) +:+ c = a +:+ (b +:+ c).
Proof. induction a as [|x a IH]; [done | by rewrite !append_cons, IH]. Qed.

Lemma last_cons (ts : list Z) : forall t d, List.last (t :: ts) d = List.last ts t.
Proof.
  induction ts as [|u ts IH]; intros t d; [done |].
  change (List.last (t :: u :: ts) d) with (List.last (u :: ts) d).
  by rewrite !IH.
Qed.

(** Character keys that follow each other within the timeout are appended
    to the buffer, and nothing is handed to the handler. *)
Lemma run_chars vks : forall ts h,
  length vks = length ts ->
  Forall (fun vk => isCharacterKey vk = true) vks ->
  0 <= TimeoutMS (config h) ->
  apart_le (TimeoutMS (config h) * ms) (lastKeyTime h :: ts) ->
  run h (keydowns vks ts) =
    ({| barcodeBuffer := barcodeBuffer h +:+ chars vks;
        lastKeyTime := List.last ts (lastKeyTime h);
        isRunning := isRunning h; config := config h; handler := handler h |}, []).
Proof.
  induction vks as [|vk vks IH]; intros [|t ts] h Hlen Hall H0 Hap;
    try discriminate Hlen.
  - cbn [keydowns combine map run]. change (chars []) with "".
    rewrite append_nil_r. by destruct h.
  - inversion Hall as [|? ? Hvk Hall']; subst.
    change (keydowns (vk :: vks) (t :: ts)) with (keydown vk t :: keydowns vks ts).
    rewrite run_cons.
    rewrite (step_char h (keydown vk t) (keydown_is_keydown _ _) Hvk).
    cbn [fst snd app].
    destruct Hap as [Hgap Hap].
    rewrite candidate_within
      by (unfold timeDiff; cbn [now keydown]; by apply gap_within).
    rewrite IH; [| by injection Hlen | done | done | done].
    cbn [fst snd app barcodeBuffer lastKeyTime isRunning config handler
         vkCode now keydown].
    f_equal. f_equal.
    + rewrite append_assoc. reflexivity.
    + symmetry. apply last_cons.
Qed.

(** Whatever the handler receives during a run has a length within the
    configured bounds. *)
Lemma step_emitted_in_range h ev p :
  handler h = Some Handlers.HandleBarcode ->
  In p (keyboardHookProc h ev).2 ->
  MinLength (config h) <= Z.of_nat (Barcode.Length p) <= MaxLength (config h).
Proof.
  intros Hh Hin.
  destruct ((HC_ACTION <=? nCode ev) && (wParam ev =? WM_KEYDOWN)) eqn:G.
  - assert (Hk : is_keydown ev).
    { apply andb_true_iff in G as [?%Z.leb_le ?%Z.eqb_eq]. by split. }
    destruct (isCharacterKey (vkCode ev)) eqn:Hc.
    + rewrite step_char in Hin by done. destruct Hin.
    + destruct (Z.eq_dec (vkCode ev) VK_RETURN) as [Hv|Hv].
      * rewrite step_return in Hin by done. cbn [snd] in Hin.
        destruct (_ && _) eqn:Hr in Hin; [| destruct Hin].
        apply in_range_b in Hr. rewrite Hh in Hin.
        destruct Hin as [<-|[]]. exact Hr.
      * rewrite step_other in Hin by done. destruct Hin.
  - rewrite step_not_keydown in Hin by done. destruct Hin.
Qed.

Lemma run_emitted_in_range evs : forall h p,
  handler h = Some Handlers.HandleBarcode ->
  In p (run h evs).2 ->
  MinLength (config h) <= Z.of_nat (Barcode.Length p) <= MaxLength (config h).
Proof.
  induction evs as [|ev rest IH]; intros h p Hh Hin; [destruct Hin |].
  rewrite run_cons in Hin. cbn [snd] in Hin.
  apply in_app_or in Hin as [Hin|Hin].
  - by eapply step_emitted_in_range.
  - destruct (step_config_handler h ev) as [Hc Hd].
    rewrite <- Hc. apply IH; [by rewrite Hd | done].
Qed.

Lemma apart_le_mono d d' ts : d <= d' -> apart_le d ts -> apart_le d' ts.
Proof.
  intros Hd. induction ts as [|t [|t' ts] IH]; [done | done |].
  intros [H1 H2]. split; [lia | by apply IH].
Qed.

Lemma apart_le_snoc d ts : forall t0 t,
  apart_le d (t0 :: ts ++ [t]) -> apart_le d (t0 :: ts) /\ t - List.last ts t0 <= d.
Proof.
  induction ts as [|u ts IH]; intros t0 t.
  - intros [H _]. split; [exact I | exact H].
  - intros [H1 H2]. destruct (IH u t H2) as [H3 H4].
    split; [by split |]. by rewrite last_cons.
Qed.

(** Character keys emit nothing, whatever their pace, and leave the time of
    the last one in [lastKeyTime]. *)
Lemma run_chars_loose vks : forall ts h,
  length vks = length ts ->
  Forall (fun vk => isCharacterKey vk = true) vks ->
  (run h (keydowns vks ts)).2 = []
  /\ lastKeyTime (run h (keydowns vks ts)).1 = List.last ts (lastKeyTime h).
Proof.
  induction vks as [|vk vks IH]; intros [|t ts] h Hlen Hall;
    try discriminate Hlen; [done |].
  inversion Hall as [|? ? Hvk Hall']; subst.
  change (keydowns (vk :: vks) (t :: ts)) with (keydown vk t :: keydowns vks ts).
  rewrite run_cons.
  rewrite (step_char h (keydown vk t) (keydown_is_keydown _ _) Hvk).
  cbn [fst snd app].
  edestruct IH as [-> ->]; [by injection Hlen | done |].
  split; [done |]. cbn [lastKeyTime now keydown]. symmetry. apply last_cons.
Qed.

(** A whole scan: a first character key that finds an empty candidate,
    character keys and a terminator that follow within the timeout.  The
    typed characters reach the handler exactly when their number is within
    the bounds, and the buffer ends empty. *)
Lemma run_scan h vk0 t0 vks ts tcr :
  candidate h (keydown vk0 t0) = "" ->
  isCharacterKey vk0 = true ->
  Forall (fun vk => isCharacterKey vk = true) vks ->
  length vks = length ts ->
  0 <= TimeoutMS (config h) ->
  apart_le (TimeoutMS (config h) * ms) (t0 :: ts ++ [tcr]) ->
  run h (keydown vk0 t0 :: keydowns vks ts ++ [keydown VK_RETURN tcr]) =
    ({| barcodeBuffer := ""; lastKeyTime := tcr; isRunning := isRunning h;
        config := config h; handler := handler h |},
     if (len (chars (vk0 :: vks)) >=? MinLength (config h))
        && (len (chars (vk0 :: vks)) <=? MaxLength (config h))
     then match handler h with
          | Some hd => [hd (chars (vk0 :: vks)) tcr]
          | None => []
          end
     else []).
Proof.
  intros Hc Hvk Hall Hlen H0 Hap.
  apply apart_le_snoc in Hap as [Hap Hcr].
  rewrite run_cons.
  rewrite (step_char h (keydown vk0 t0) (keydown_is_keydown _ _) Hvk), Hc.
  cbn [fst snd app vkCode now keydown].
  rewrite run_app, run_chars by done.
  cbn [fst snd app barcodeBuffer lastKeyTime isRunning config handler].
  rewrite run_cons, step_return by (apply keydown_is_keydown || reflexivity).
  cbn [run fst snd barcodeBuffer lastKeyTime isRunning config handler now keydown].
  rewrite candidate_within
    by (unfold timeDiff; cbn [lastKeyTime config now keydown]; by apply gap_within).
  cbn [barcodeBuffer]. rewrite app_nil_r. reflexivity.
Qed.

(** C9: after a terminator key-down the buffer is empty, from any state of
    the Hook, also when the candidate is out of bounds and nothing is handed
    to the handler. *)
Theorem buffer_empty_after_terminator (h : Hook) (ev : KeyEvent) :
  is_keydown ev -> vkCode ev = VK_RETURN ->
  barcodeBuffer (keyboardHookProc h ev).1 = ""
  /\ (~ in_range (config h) (candidate h ev) ->
      (keyboardHookProc h ev).2 = []
      /\ barcodeBuffer (keyboardHookProc h ev).1 = "").
Proof.
  intros Hk Hv. rewrite step_return by done. cbn [fst snd barcodeBuffer].
  split; [done |]. intros Hr. split; [| done].
  destruct (_ && _) eqn:E; [| done]. by apply in_range_b in E.
Qed.

Lemma buffer_empty_after_terminator_witness :
  is_keydown returnAt5 /\ vkCode returnAt5 = VK_RETURN
  /\ barcodeBuffer (keyboardHookProc hookABC returnAt5).1 = "".
Proof.
  split; [apply keydown_is_keydown |]. split; [reflexivity |].
  exact (proj1 (buffer_empty_after_terminator hookABC returnAt5
                  (keydown_is_keydown _ _) eq_refl)).
Defined.

(** C3: on a terminator key-down the candidate reaches the handler, as one
    payload, exactly when its length is within the configured bounds;
    otherwise nothing is emitted; in both cases the input is gone from the
    buffer.  Every payload emitted during any run has a length within the
    bounds, and 'A','B', terminator emits nothing under the default bounds,
    whatever the timing. *)
Theorem terminator_emits_iff_in_range (h : Hook) (ev : KeyEvent) :
  is_keydown ev -> vkCode ev = VK_RETURN ->
  handler h = Some Handlers.HandleBarcode ->
  (in_range (config h) (candidate h ev) ->
     (keyboardHookProc h ev).2 = [Handlers.HandleBarcode (candidate h ev) (now ev)])
  /\ (~ in_range (config h) (candidate h ev) -> (keyboardHookProc h ev).2 = [])
  /\ ((keyboardHookProc h ev).2 <> [] <-> in_range (config h) (candidate h ev))
  /\ barcodeBuffer (keyboardHookProc h ev).1 = ""
  /\ (timeDiff h ev <= TimeoutMS (config h) -> candidate h ev = barcodeBuffer h)
  /\ (forall evs p, In p (run h evs).2 ->
        MinLength (config h) <= Z.of_nat (Barcode.Length p) <= MaxLength (config h))
  /\ MinLength defaultConfig = 3 /\ MaxLength defaultConfig = 50
  /\ (forall t1 t2 t3,
        (run (appHook defaultConfig)
             (keydowns [vk_of "A"; vk_of "B"; VK_RETURN] [t1; t2; t3])).2 = []).
Proof.
  intros Hk Hv Hh. rewrite step_return by done. cbn [fst snd barcodeBuffer].
  rewrite Hh.
  assert (Hyes : in_range (config h) (candidate h ev) ->
    (len (candidate h ev) >=? MinLength (config h))
    && (len (candidate h ev) <=? MaxLength (config h)) = true)
    by apply in_range_b.
  assert (Hno : ~ in_range (config h) (candidate h ev) ->
    (len (candidate h ev) >=? MinLength (config h))
    && (len (candidate h ev) <=? MaxLength (config h)) = false).
  { intros Hr. destruct (_ && _) eqn:E; [| done]. by apply in_range_b in E. }
  split; [by intros ->%Hyes |].
  split; [by intros ->%Hno |].
  split.
  { split.
    - intros Hne. destruct (_ && _) eqn:E in Hne; [| done].
      by apply in_range_b.
    - by intros ->%Hyes. }
  split; [done |].
  split; [apply candidate_within |].
  split; [intros evs p; by apply run_emitted_in_range |].
  split; [done |]. split; [done |].
  intros t1 t2 t3.
  change (keydowns [vk_of "A"; vk_of "B"; VK_RETURN] [t1; t2; t3])
    with [keydown (vk_of "A") t1; keydown (vk_of "B") t2; keydown VK_RETURN t3].
  rewrite run_cons.
  rewrite (step_char _ (keydown (vk_of "A") t1) (keydown_is_keydown _ _) eq_refl).
  cbn [fst snd].
  rewrite run_cons.
  rewrite (step_char _ (keydown (vk_of "B") t2) (keydown_is_keydown _ _) eq_refl).
  cbn [fst snd].
  rewrite run_cons, step_return by (apply keydown_is_keydown || reflexivity).
  cbn [run fst snd app]. unfold candidate.
  cbn [barcodeBuffer config appHook NewHook TimeoutMS MinLength MaxLength
       defaultConfig].
  repeat match goal with
         | |- context [if ?b >? ?c then _ else _] => destruct (b >? c)
         end; reflexivity.
Qed.

Lemma terminator_emits_iff_in_range_witness :
  is_keydown returnAt5 /\ vkCode returnAt5 = VK_RETURN
  /\ handler hookABC = Some Handlers.HandleBarcode
  /\ ((keyboardHookProc hookABC returnAt5).2 <> []
       <-> in_range (config hookABC) (candidate hookABC returnAt5)).
Proof.
  split; [apply keydown_is_keydown |]. split; [reflexivity |].
  split; [reflexivity |].
  exact (proj1 (proj2 (proj2 (terminator_emits_iff_in_range
                  hookABC returnAt5 (keydown_is_keydown _ _) eq_refl eq_refl)))).
Defined.

(** After a gap longer than the timeout the call of the hook procedure does
    not depend on what the buffer held. *)
Lemma step_after_gap h ev b :
  is_keydown ev -> timeDiff h ev > TimeoutMS (config h) ->
  keyboardHookProc (with_buffer h b) ev = keyboardHookProc (with_buffer h "") ev.
Proof.
  intros Hk Hgap.
  assert (Hc : forall b', candidate (with_buffer h b') ev = "")
    by (intros b'; by apply candidate_gap).
  destruct (isCharacterKey (vkCode ev)) eqn:Hch.
  - by rewrite !step_char, !Hc.
  - destruct (Z.eq_dec (vkCode ev) VK_RETURN) as [Hv|Hv].
    + by rewrite !step_return, !Hc.
    + by rewrite !step_other, !Hc.
Qed.

(** C4: when a key-down arrives after a gap longer than the timeout, the
    run from there on (states and emitted payloads) is the one an empty
    buffer would give, whatever had been accumulated before; the event finds
    an empty candidate.  With the default timeout of 100 ms, '1','2','3', a
    pause of 500 ms, then '4','5','6' and the terminator within the timeout
    emit the single payload "456". *)
Theorem gap_discards_buffer (h : Hook) (ev : KeyEvent) (rest : list KeyEvent)
    (b : string) :
  is_keydown ev -> timeDiff h ev > TimeoutMS (config h) ->
  run (with_buffer h b) (ev :: rest) = run (with_buffer h "") (ev :: rest)
  /\ candidate (with_buffer h b) ev = ""
  /\ TimeoutMS defaultConfig = 100
  /\ (forall t1 t2 t3 t4 t5 t6 t7,
        t4 - t3 = 500 * ms -> apart_le (100 * ms) [t4; t5; t6; t7] ->
        (run (appHook defaultConfig)
             (keydowns (map vk_of ["1"; "2"; "3"; "4"; "5"; "6"]%char ++ [VK_RETURN])
                       [t1; t2; t3; t4; t5; t6; t7])).2
        = [Handlers.HandleBarcode "456" t7]
        /\ Barcode.Content (Handlers.HandleBarcode "456" t7) = "456").
Proof.
  intros Hk Hgap.
  split; [by rewrite !run_cons, step_after_gap |].
  split; [by apply candidate_gap |].
  split; [done |].
  intros t1 t2 t3 t4 t5 t6 t7 Hpause Hap. split; [| done].
  set (h0 := appHook defaultConfig).
  change (keydowns _ _) with
    (keydowns (map vk_of ["1"; "2"; "3"]%char) [t1; t2; t3]
     ++ keydown (vk_of "4") t4
        :: keydowns (map vk_of ["5"; "6"]%char) [t5; t6]
           ++ [keydown VK_RETURN t7])%list.
  rewrite run_app. cbn [snd].
  destruct (run_chars_loose (map vk_of ["1"; "2"; "3"]%char) [t1; t2; t3] h0)
    as [Hout Hlast]; [done | by repeat constructor |].
  destruct (run_config_handler
              (keydowns (map vk_of ["1"; "2"; "3"]%char) [t1; t2; t3]) h0)
    as [Hcfg Hhd].
  rewrite Hout. cbn [app].
  set (h3 := (run h0 _).1) in *.
  change (List.last [t1; t2; t3] (lastKeyTime h0)) with t3 in Hlast.
  rewrite run_scan.
  - cbn [snd]. rewrite Hcfg, Hhd. reflexivity.
  - apply candidate_gap. unfold timeDiff. cbn [now keydown].
    rewrite Hlast, Hcfg, (Sub_exact t4 t3 (500 * ms)).
    + vm_compute. reflexivity.
    + exact Hpause.
    + vm_compute. split; discriminate.
  - reflexivity.
  - by repeat constructor.
  - reflexivity.
  - by rewrite Hcfg.
  - rewrite Hcfg. exact Hap.
Qed.

Lemma gap_discards_buffer_witness :
  is_keydown key4Late /\ timeDiff hook123 key4Late > TimeoutMS (config hook123)
  /\ run (with_buffer hook123 "123") [key4Late; returnLate]
     = run (with_buffer hook123 "") [key4Late; returnLate].
Proof.
  assert (Hgap : timeDiff hook123 key4Late > TimeoutMS (config hook123))
    by (vm_compute; reflexivity).
  split; [apply keydown_is_keydown |]. split; [exact Hgap |].
  exact (proj1 (gap_discards_buffer hook123 key4Late [returnLate] "123"
                  (keydown_is_keydown _ _) Hgap)).
Defined.

(** The content of scenario 1 and its key codes. *)
Lemma scenario1_chars :
  chars (map vk_of ["1";"2";"3";"4";"5";"6";"7";"8";"9";"0";"1";"2";"3"]%char)
  = "1234567890123".
Proof. reflexivity. Qed.

(** C5: an all-digit content of length 8, 12, 13 or 14 is typed EAN-8,
    UPC-A, EAN-13 or ITF-14; and the thirteen digit keys of "1234567890123"
    followed by the terminator, each at most 50 ms after the one before, make
    the Hook of the application (default configuration) emit exactly one
    payload, with that content, type EAN-13 and status success. *)
Theorem digits_classified_and_scanned (s : string) (ts : list Z) :
  Barcode.digits_only s ->
  length ts = 14%nat -> apart_le (50 * ms) ts ->
  (String.length s = 8%nat -> Barcode.GetBarcodeType s = "EAN-8")
  /\ (String.length s = 12%nat -> Barcode.GetBarcodeType s = "UPC-A")
  /\ (String.length s = 13%nat -> Barcode.GetBarcodeType s = "EAN-13")
  /\ (String.length s = 14%nat -> Barcode.GetBarcodeType s = "ITF-14")
  /\ exists p,
       (run (appHook defaultConfig)
            (keydowns
               (map vk_of ["1";"2";"3";"4";"5";"6";"7";"8";"9";"0";"1";"2";"3"]%char
                ++ [VK_RETURN]) ts)).2 = [p]
       /\ Barcode.Content p = "1234567890123"
       /\ Barcode.Length p = 13%nat
       /\ Barcode.Type_ p = "EAN-13"
       /\ Barcode.Status p = "success".
Proof.
  intros Hd Hlen Hap.
  destruct (BarcodeFacts.digits_classified s Hd) as (H8 & H12 & H13 & H14).
  do 4 (split; [assumption |]).
  do 14 (destruct ts as [|? ts]; [discriminate Hlen |]).
  destruct ts; [| discriminate Hlen].
  match goal with
  | |- context [keydowns _ (?t0 :: ?a :: ?b :: ?c :: ?d :: ?e :: ?f :: ?g :: ?i
                            :: ?j :: ?k :: ?l :: ?m :: [?tcr])] =>
      change (keydowns _ _) with
        (keydown (vk_of "1") t0
         :: keydowns (map vk_of ["2";"3";"4";"5";"6";"7";"8";"9";"0";"1";"2";"3"]%char)
                     [a; b; c; d; e; f; g; i; j; k; l; m]
            ++ [keydown VK_RETURN tcr])%list;
      rewrite (run_scan (appHook defaultConfig) (vk_of "1") t0 _ _ tcr);
      [ exists (Handlers.HandleBarcode "1234567890123" tcr)
      | by apply candidate_empty | reflexivity | by repeat constructor
      | reflexivity | done
      | apply (apart_le_mono (50 * ms)); [vm_compute; discriminate | exact Hap] ]
  end.
  repeat split; reflexivity.
Qed.

Lemma digits_classified_and_scanned_witness :
  Barcode.digits_only "12345678" /\ length paced14 = 14%nat
  /\ apart_le (50 * ms) paced14
  /\ Barcode.GetBarcodeType "12345678" = "EAN-8".
Proof.
  assert (Hd : Barcode.digits_only "12345678")
    by (apply BarcodeFacts.isAllDigits_spec; reflexivity).
  assert (Hap : apart_le (50 * ms) paced14) by (vm_compute; intuition discriminate).
  split; [exact Hd |]. split; [reflexivity |]. split; [exact Hap |].
  exact (proj1 (digits_classified_and_scanned "12345678" paced14 Hd eq_refl Hap)
               eq_refl).
Defined.

(** The scenarios, run on concrete clock readings. *)
Example scenario2_PRD99 :
  (run (appHook defaultConfig)
       (keydowns (map vk_of ["P"; "R"; "D"; "9"; "9"]%char ++ [VK_RETURN])
                 [0; 10 * ms; 20 * ms; 30 * ms; 40 * ms; 50 * ms])).2
  = [ {| Barcode.Content := "PRD99"; Barcode.Length := 5;
         Barcode.Type_ := "Code 128"; Barcode.Timestamp := 50 * ms;
         Barcode.Status := "success";
         Barcode.Message := "识别为产品条码，正在查询产品信息..." |} ].
Proof. vm_compute. reflexivity. Qed.

Example scenario4_pause :
  map Barcode.Content
    (run (appHook defaultConfig)
       (keydowns (map vk_of ["1"; "2"; "3"; "4"; "5"; "6"]%char ++ [VK_RETURN])
                 [0; 10 * ms; 20 * ms; 520 * ms; 530 * ms; 540 * ms; 550 * ms])).2
  = ["456"].
Proof. vm_compute. reflexivity. Qed.

End ScannerFacts.

(* ===================================================================== *)
(** ** Facts about the Hub *)
(* ===================================================================== *)

Module HubFacts.
Import Websocket.

Lemma room_or_full {A} (ch : Chan A) : has_room ch \/ is_full ch.
Proof. unfold has_room, is_full. lia. Qed.

Lemma try_send_room {A} (ch : Chan A) v :
  closed ch = false -> has_room ch -> try_send ch v = Sent (enqueue ch v).
Proof.
  unfold try_send, has_room. intros -> H.
  by destruct (Nat.ltb_spec (length (buf ch)) (cap ch)); [| lia].
Qed.

Lemma try_send_full {A} (ch : Chan A) v :
  closed ch = false -> is_full ch -> try_send ch v = WouldBlock.
Proof.
  unfold try_send, is_full. intros -> H.
  by destruct (Nat.ltb_spec (length (buf ch)) (cap ch)); [lia |].
Qed.

Lemma close_open {A} (ch : Chan A) : closed ch = false -> close ch = Some (shut ch).
Proof. unfold close. by intros ->. Qed.

(** *** The shared [select]: deliver, or drop the client *)

Lemma send_or_drop_room m c h ch :
  send h !! c = Some ch -> closed ch = false -> has_room ch ->
  send_or_drop m c h = Done (set_send h c (enqueue ch m)).
Proof.
  intros Hs Ho Hr. unfold send_or_drop. by rewrite Hs, try_send_room.
Qed.

Lemma send_or_drop_full m c h ch :
  send h !! c = Some ch -> closed ch = false -> is_full ch ->
  send_or_drop m c h =
    Done (set_clients (set_send h c (shut ch)) (delete c (clients h))).
Proof.
  intros Hs Ho Hf. unfold send_or_drop.
  by rewrite Hs, try_send_full, close_open.
Qed.

(** What the [select] does to the client it is run for, and to the others. *)
Lemma send_or_drop_spec m c h :
  client_open h c ->
  exists h', send_or_drop m c h = Done h'
    /\ broadcast h' = broadcast h /\ logs h' = logs h
    /\ (forall c', c' <> c ->
          clients h' !! c' = clients h !! c' /\ send h' !! c' = send h !! c')
    /\ (forall ch, send h !! c = Some ch ->
          (has_room ch ->
             clients h' !! c = clients h !! c
             /\ send h' !! c = Some (enqueue ch m))
          /\ (is_full ch ->
             clients h' !! c = None /\ send h' !! c = Some (shut ch))).
Proof.
  unfold client_open. destruct (send h !! c) as [ch|] eqn:Hs; [| done].
  intros Ho. destruct (room_or_full ch) as [Hr|Hf].
  - eexists. split; [by apply send_or_drop_room |].
    split; [done |]. split; [done |]. split.
    + intros c' Hne. cbn. by rewrite lookup_insert_ne.
    + intros ch' [= <-]. split.
      * intros _. cbn. by rewrite lookup_insert_eq.
      * intros Hf. unfold has_room, is_full in *. lia.
  - eexists. split; [by apply send_or_drop_full |].
    split; [done |]. split; [done |]. split.
    + intros c' Hne. cbn. by rewrite lookup_delete_ne, lookup_insert_ne.
    + intros ch' [= <-]. split.
      * intros Hr. unfold has_room, is_full in *. lia.
      * intros _. cbn. by rewrite lookup_delete_eq, lookup_insert_eq.
Qed.

(** *** The broadcast loop *)

(** The loop over a duplicate-free list of clients that all have an open
    queue: it does not panic, and each client is treated on its own. *)
Lemma fanout_foldl m (l : list ClientPtr) :
  NoDup l -> forall h,
  (forall c, c ∈ l -> client_open h c) ->
  exists h', foldl (fanout_step m) (Done h) l = Done h'
    /\ broadcast h' = broadcast h /\ logs h' = logs h
    /\ (forall c, c ∉ l ->
          clients h' !! c = clients h !! c /\ send h' !! c = send h !! c)
    /\ (forall c ch, c ∈ l -> send h !! c = Some ch ->
          (has_room ch ->
             clients h' !! c = clients h !! c
             /\ send h' !! c = Some (enqueue ch m))
          /\ (is_full ch ->
             clients h' !! c = None /\ send h' !! c = Some (shut ch))).
Proof.
  induction 1 as [|a l Hnotin Hnd IH]; intros h Hopen.
  - exists h. split; [done |]. split; [done |]. split; [done |].
    split; [done |]. intros c ch Hc. by apply elem_of_nil in Hc.
  - destruct (send_or_drop_spec m a h) as (h1 & Hrun & Hb1 & Hl1 & Hoth & Hself).
    { apply Hopen. by left. }
    destruct (IH h1) as (h' & Hfold & Hb & Hl & Hout & Hin).
    { intros c Hc. assert (c <> a) by (intros ->; done).
      unfold client_open. destruct (Hoth c) as [_ ->]; [done |].
      apply Hopen. by right. }
    exists h'. split; [cbn [foldl fanout_step]; by rewrite Hrun |].
    split; [congruence |]. split; [congruence |]. split.
    + intros c Hc. apply not_elem_of_cons in Hc as [Hne Hc].
      destruct (Hout c Hc) as [-> ->]. by apply Hoth.
    + intros c ch Hc Hs. apply elem_of_cons in Hc as [->|Hc].
      * destruct (Hout a Hnotin) as [-> ->]. by apply Hself.
      * assert (c <> a) by (intros ->; done).
        destruct (Hoth c) as [Hc1 Hs1]; [done |].
        rewrite <- Hc1. apply Hin; [done | by rewrite Hs1].
Qed.

Lemma elem_of_range_clients h c : c ∈ range_clients h <-> is_Some (clients h !! c).
Proof.
  unfold range_clients. rewrite list_elem_of_fmap. split.
  - intros ([c' v] & -> & Hin). apply elem_of_map_to_list in Hin. by exists v.
  - intros [v Hv]. exists (c, v). split; [done | by apply elem_of_map_to_list].
Qed.

Lemma not_live_lookup h c : ¬ is_Some (clients h !! c) <-> clients h !! c = None.
Proof. rewrite <- eq_None_not_Some. done. Qed.

(** The broadcast loop on a well-formed Hub. *)
Lemma fanout_spec m h :
  (forall c, is_Some (clients h !! c) -> client_open h c) ->
  exists h', fanout m h = Done h'
    /\ broadcast h' = broadcast h /\ logs h' = logs h
    /\ (forall c, clients h !! c = None ->
          clients h' !! c = None /\ send h' !! c = send h !! c)
    /\ (forall c ch, is_Some (clients h !! c) -> send h !! c = Some ch ->
          (has_room ch ->
             clients h' !! c = clients h !! c
             /\ send h' !! c = Some (enqueue ch m))
          /\ (is_full ch ->
             clients h' !! c = None /\ send h' !! c = Some (shut ch))).
Proof.
  intros Hopen.
  destruct (fanout_foldl m (range_clients h) (NoDup_fst_map_to_list _) h)
    as (h' & Hfold & Hb & Hl & Hout & Hin).
  { intros c Hc. by apply Hopen, elem_of_range_clients. }
  exists h'. split; [exact Hfold |]. split; [done |]. split; [done |]. split.
  - intros c Hc. destruct (Hout c) as [H1 H2].
    + rewrite elem_of_range_clients, Hc. by intros [? ?].
    + by rewrite H1, H2.
  - intros c ch Hc. apply Hin. by apply elem_of_range_clients.
Qed.

(** *** Registration of a new client *)

Lemma newClient_fresh h : send h !! newClient h = None.
Proof. apply not_elem_of_dom. unfold newClient. apply is_fresh. Qed.

(** A new connection gets a queue of capacity 256 that holds the welcome
    message and nothing else, and is live afterwards. *)
Lemma HandleWebSocket_spec now h :
  exists h', HandleWebSocket now h = (newClient h, Done h')
    /\ clients h' = <[newClient h := true]> (clients h)
    /\ send h' = <[newClient h :=
                     {| buf := [Marshal (welcomeMsg now)]; cap := 256;
                        closed := false |}]> (send h)
    /\ broadcast h' = broadcast h.
Proof.
  unfold HandleWebSocket, Run_register. set (c := newClient h).
  eexists. split.
  - f_equal. erewrite send_or_drop_room.
    + reflexivity.
    + cbn. apply lookup_insert_eq.
    + reflexivity.
    + unfold has_room. cbn. lia.
  - cbn. split; [done |]. split; [| done]. by rewrite insert_insert_eq.
Qed.

(** *** Well-formed Hubs *)

Lemma wf_open h c : hub_wf h -> is_Some (clients h !! c) -> client_open h c.
Proof. intros [_ H] [v Hv]. exact (H c v Hv). Qed.

Lemma wf_live_chan h c :
  hub_wf h -> is_Some (clients h !! c) ->
  exists ch, send h !! c = Some ch /\ closed ch = false.
Proof.
  intros Hwf Hc. pose proof (wf_open h c Hwf Hc) as Ho. unfold client_open in Ho.
  destruct (send h !! c) as [ch|]; [by exists ch | done].
Qed.

Lemma wf_fresh_not_live h : hub_wf h -> clients h !! newClient h = None.
Proof.
  intros Hwf. apply eq_None_not_Some. intros Hc.
  destruct (wf_live_chan h _ Hwf Hc) as (ch & Hs & _).
  by rewrite newClient_fresh in Hs.
Qed.



(** The unregister case on a live client with an open queue, and on an
    absent client. *)
Lemma Run_unregister_live c h ch v :
  clients h !! c = Some v -> send h !! c = Some ch -> closed ch = false ->
  Run_unregister c h =
    Done (log (set_send (set_clients h (delete c (clients h))) c (shut ch))
              {| level := Info; text := "客户端断开连接";
                 client_count := Some (size (delete c (clients h))) |}).
Proof.
  intros Hc Hs Ho. unfold Run_unregister. rewrite Hc. cbn. by rewrite Hs, close_open.
Qed.

Lemma Run_unregister_absent c h : clients h !! c = None -> Run_unregister c h = Done h.
Proof. intros Hc. unfold Run_unregister. by rewrite Hc. Qed.


Lemma wf_fanout m h h' :
  closed (broadcast h) = false ->
  (forall c, is_Some (clients h !! c) -> client_open h c) ->
  fanout m h = Done h' -> hub_wf h'.
Proof.
  intros Hb Hopen Hrun.
  destruct (fanout_spec m h Hopen) as (h1 & Heq & Hb1 & _ & Hout & Hin).
  rewrite Heq in Hrun. injection Hrun as <-.
  split; [by rewrite Hb1 |]. intros c v Hv.
  destruct (clients h !! c) as [v0|] eqn:Hc.
  - pose proof (Hopen c (ltac:(by exists v0))) as Ho. unfold client_open in Ho |- *.
    destruct (send h !! c) as [ch|] eqn:Hs; [| done].
    destruct (Hin c ch) as [Hroom Hfull]; [by exists v0 | done |].
    destruct (room_or_full ch) as [Hr|Hf].
    + destruct (Hroom Hr) as [_ ->]. exact Ho.
    + destruct (Hfull Hf) as [Hnone _]. congruence.
  - destruct (Hout c Hc) as [Hnone _]. congruence.
Qed.





(** *** The claims about the Hub *)

(** C2 (as stated, refuted): the welcome message enqueued for the first
    connection to a new Hub does carry a data payload. *)
Lemma welcome_carries_data_counterexample :
  exists h ch,
    HandleWebSocket 0 NewHub = (0%nat, Done h)
    /\ send h !! 0%nat = Some ch
    /\ buf ch = [Marshal (welcomeMsg 0)]
    /\ ~ carries_no_data (welcomeMsg 0)
    /\ In "data" (json_keys (welcomeMsg 0)).
Proof.
  destruct (HandleWebSocket_spec 0 NewHub) as (h & Heq & _ & Hs & _).
  exists h. eexists. split; [exact Heq |].
  split; [rewrite Hs; apply lookup_insert_eq |].
  split; [reflexivity |]. split; [discriminate |]. cbn. tauto.
Qed.

(** C2 (amended): the message enqueued for a newly registered subscriber is
    an envelope of type "welcome" with a timestamp, whose data field is
    present: a one-entry map that holds the fixed greeting under the key
    "message".  A new connection finds it alone in its queue. *)
Theorem welcome_envelope (now : Z) (h : Hub) :
  (exists h', HandleWebSocket now h = (newClient h, Done h')
     /\ send h' !! newClient h
        = Some {| buf := [Marshal (welcomeMsg now)]; cap := 256; closed := false |})
  /\ (forall c ch, send h !! c = Some ch -> closed ch = false -> has_room ch ->
        exists h', Run_register c now h = Done h'
          /\ send h' !! c = Some (enqueue ch (Marshal (welcomeMsg now))))
  /\ Type_ (welcomeMsg now) = "welcome"
  /\ Data (welcomeMsg now) = Some (DataMap [("message", greeting)])
  /\ Time (welcomeMsg now) = now
  /\ json_keys (welcomeMsg now) = ["type"; "data"; "time"].
Proof.
  split.
  { destruct (HandleWebSocket_spec now h) as (h' & Heq & _ & Hs & _).
    exists h'. split; [exact Heq |]. rewrite Hs. apply lookup_insert_eq. }
  split; [| done].
  intros c ch Hs Ho Hr. unfold Run_register.
  erewrite send_or_drop_room; [| exact Hs | exact Ho | exact Hr].
  eexists. split; [reflexivity |]. cbn. apply lookup_insert_eq.
Qed.

Lemma welcome_envelope_witness :
  send threeClients !! 0%nat = Some (make 256)
  /\ exists h', Run_register 0%nat 9 threeClients = Done h'
       /\ send h' !! 0%nat = Some (enqueue (make 256) (Marshal (welcomeMsg 9))).
Proof.
  assert (Hs : send threeClients !! 0%nat = Some (make 256))
    by (vm_compute; reflexivity).
  assert (Hr : has_room (make (A := Bytes) 256)) by (vm_compute; lia).
  split; [exact Hs |].
  exact (proj1 (proj2 (welcome_envelope 9 threeClients))
               0%nat (make 256) Hs eq_refl Hr).
Defined.

(** C6: a broadcast step on a well-formed Hub takes the oldest message of
    the inbound channel; every live subscriber whose queue has room gets it
    at the end of its queue and stays live; every live subscriber whose queue
    is full leaves the live set and has its queue closed; the others are left
    alone; and a subscriber that connects afterwards finds only its welcome
    message in its queue. *)
Theorem broadcast_delivers_or_drops (h : Hub) (message : Bytes) (rest : list Bytes) :
  hub_wf h -> buf (broadcast h) = message :: rest ->
  exists h', Run_broadcast h = Done h'
    /\ buf (broadcast h') = rest
    /\ (forall c ch, is_Some (clients h !! c) -> send h !! c = Some ch ->
          has_room ch ->
          clients h' !! c = clients h !! c
          /\ send h' !! c = Some (enqueue ch message))
    /\ (forall c ch, is_Some (clients h !! c) -> send h !! c = Some ch ->
          is_full ch ->
          clients h' !! c = None
          /\ send h' !! c = Some (shut ch) /\ closed (shut ch) = true)
    /\ (forall c, clients h !! c = None ->
          clients h' !! c = None /\ send h' !! c = send h !! c)
    /\ (forall now, exists h'',
          HandleWebSocket now h' = (newClient h', Done h'')
          /\ clients h' !! newClient h' = None
          /\ clients h'' !! newClient h' = Some true
          /\ send h'' !! newClient h'
             = Some {| buf := [Marshal (welcomeMsg now)]; cap := 256;
                       closed := false |}
          /\ (forall d t, message = Marshal (barcodeMsg d t) ->
                ~ In message [Marshal (welcomeMsg now)])).
Proof.
  intros Hwf Hbuf. unfold Run_broadcast. rewrite Hbuf.
  set (h0 := set_broadcast h _).
  assert (Hopen : forall c, is_Some (clients h0 !! c) -> client_open h0 c)
    by (intros c Hc; exact (wf_open h c Hwf Hc)).
  destruct (fanout_spec message h0 Hopen) as (h' & Heq & Hb & _ & Hout & Hin).
  assert (Hwf' : hub_wf h').
  { by apply (wf_fanout message h0); [exact (proj1 Hwf) | |]. }
  exists h'. split; [exact Heq |]. split; [by rewrite Hb |].
  split; [intros c ch Hc Hs Hr; by apply (Hin c ch) |].
  split; [intros c ch Hc Hs Hf; split; [| split; [| done]]; by apply (Hin c ch) |].
  split; [exact Hout |].
  intros now. destruct (HandleWebSocket_spec now h') as (h'' & Heq' & Hc & Hs & _).
  exists h''. split; [exact Heq' |]. split; [by apply wf_fresh_not_live |].
  rewrite Hc, Hs, !lookup_insert_eq. split; [done |]. split; [done |].
  intros d t -> [Heq0|[]]. discriminate Heq0.
Qed.

Lemma broadcast_delivers_or_drops_witness :
  hub_wf threeClients
  /\ exists h', Run_broadcast threeClients = Done h'
       /\ buf (broadcast h') = []
       /\ (forall c ch, is_Some (clients threeClients !! c) ->
             send threeClients !! c = Some ch -> has_room ch ->
             clients h' !! c = clients threeClients !! c
             /\ send h' !! c
                = Some (enqueue ch
                          (Marshal (barcodeMsg (Barcode.ProcessBarcode "PRD99" 7) 8)))).
Proof.
  assert (Hwf : hub_wf threeClients)
    by (apply (bool_decide_unpack _); vm_compute; reflexivity).
  split; [exact Hwf |].
  destruct (broadcast_delivers_or_drops threeClients _ [] Hwf eq_refl)
    as (h' & H1 & H2 & H3 & _).
  exists h'. split; [exact H1 |]. split; [exact H2 | exact H3].
Defined.

(** C7: on a well-formed Hub the unregister case returns; running it a
    second time changes nothing; for an absent subscriber the first run
    changes nothing either; for a live one it removes exactly that subscriber
    and closes its open queue, other subscribers being left alone. *)
Theorem unregister_idempotent (h : Hub) (c : ClientPtr) :
  hub_wf h ->
  exists h', Run_unregister c h = Done h'
    /\ Run_unregister c h' = Done h'
    /\ (clients h !! c = None -> h' = h)
    /\ (is_Some (clients h !! c) ->
          exists ch, send h !! c = Some ch /\ closed ch = false
            /\ clients h' = delete c (clients h)
            /\ send h' = <[c := shut ch]> (send h)
            /\ broadcast h' = broadcast h)
    /\ (forall c', c' <> c ->
          clients h' !! c' = clients h !! c' /\ send h' !! c' = send h !! c').
Proof.
  intros Hwf. destruct (clients h !! c) as [v|] eqn:Hc.
  - destruct (wf_live_chan h c Hwf) as (ch & Hs & Ho); [by exists v |].
    eexists. split; [by apply (Run_unregister_live c h ch v) |].
    split; [apply Run_unregister_absent; cbn; apply lookup_delete_eq |].
    split; [discriminate |]. split.
    + intros _. exists ch. by repeat split.
    + intros c' Hne. cbn. by rewrite lookup_delete_ne, lookup_insert_ne.
  - exists h. split; [by apply Run_unregister_absent |].
    split; [by apply Run_unregister_absent |]. split; [done |].
    split; [by intros [? ?] | done].
Qed.

Lemma unregister_idempotent_witness :
  hub_wf threeClients
  /\ exists h', Run_unregister 1%nat threeClients = Done h'
       /\ Run_unregister 1%nat h' = Done h'.
Proof.
  assert (Hwf : hub_wf threeClients)
    by (apply (bool_decide_unpack _); vm_compute; reflexivity).
  split; [exact Hwf |].
  destruct (unregister_idempotent threeClients 1%nat Hwf) as (h' & H1 & H2 & _).
  exists h'. by split.
Defined.

(** C8: when the inbound channel is open and full, [BroadcastBarcode]
    returns (it neither waits nor panics, and has no error result); the
    message is not queued, one warning is logged, and the subscriber set, the
    subscriber queues and the inbound channel are unchanged.  [NewHub] gives
    the inbound channel the capacity 256. *)
Theorem BroadcastBarcode_drops_when_full (h : Hub) (d : Barcode.BarcodeData) (now : Z) :
  closed (broadcast h) = false -> is_full (broadcast h) ->
  exists h', BroadcastBarcode d now h = Done h'
    /\ clients h' = clients h
    /\ send h' = send h
    /\ broadcast h' = broadcast h
    /\ logs h' = (logs h ++ [ {| level := Warn; text := "广播通道已满，丢弃消息";
                                 client_count := None |} ])%list
    /\ cap (broadcast NewHub) = 256%nat.
Proof.
  intros Ho Hf. unfold BroadcastBarcode. rewrite try_send_full by done.
  eexists. split; [reflexivity |]. by repeat split.
Qed.

Lemma BroadcastBarcode_drops_when_full_witness :
  closed (broadcast saturatedHub) = false /\ is_full (broadcast saturatedHub)
  /\ exists h', BroadcastBarcode (Barcode.ProcessBarcode "12345678" 3) 4 saturatedHub
                = Done h'
       /\ broadcast h' = broadcast saturatedHub.
Proof.
  assert (Hf : is_full (broadcast saturatedHub)) by (vm_compute; lia).
  split; [reflexivity |]. split; [exact Hf |].
  destruct (BroadcastBarcode_drops_when_full saturatedHub
              (Barcode.ProcessBarcode "12345678" 3) 4 eq_refl Hf)
    as (h' & H1 & _ & _ & H2 & _).
  exists h'. by split.
Defined.

End HubFacts.

(* ===================================================================== *)
(** ** Further facts about the Processor *)
(* ===================================================================== *)

Module ProcessorFacts.
Import Barcode.

Lemma all_ascii (P : ascii -> Prop) :
  (forall b0 b1 b2 b3 b4 b5 b6 b7, P (Ascii b0 b1 b2 b3 b4 b5 b6 b7)) ->
  forall r, P r.
Proof. intros H [b0 b1 b2 b3 b4 b5 b6 b7]. apply H. Qed.

Lemma existsb_In (r : ascii) (l : list ascii) :
  existsb (Ascii.eqb r) l = true <-> In r l.
Proof.
  rewrite existsb_exists. split.
  - intros (x & Hx & Heq). apply Ascii.eqb_eq in Heq. by subst.
  - intros H. exists r. split; [done | apply Ascii.eqb_refl].
Qed.

Lemma isLegalRune_spec r :
  isLegalRune r = true <-> In r (list_ascii_of_string legal_chars).
Proof.
  rewrite <- existsb_In. revert r. refine (all_ascii _ _).
  intros [] [] [] [] [] [] [] []; vm_compute; tauto.
Qed.

Lemma isAlphaNumericRune_spec r :
  isAlphaNumericRune r = true <-> In r (list_ascii_of_string alnum_chars).
Proof.
  rewrite <- existsb_In. revert r. refine (all_ascii _ _).
  intros [] [] [] [] [] [] [] []; vm_compute; tauto.
Qed.

Lemma hasIllegalRune_spec s : hasIllegalRune s = false <-> chars_in legal_chars s.
Proof.
  unfold chars_in. induction s as [|r s IH]; cbn [hasIllegalRune list_ascii_of_string].
  - split; [constructor | done].
  - destruct (isLegalRune r) eqn:E; cbn [negb].
    + rewrite IH. split.
      * intros H. constructor; [by apply isLegalRune_spec | done].
      * by inversion 1.
    + split; [discriminate |]. inversion 1 as [|? ? Hr _]; subst.
      apply isLegalRune_spec in Hr. congruence.
Qed.

Lemma isAlphaNumeric_spec s : isAlphaNumeric s = true <-> chars_in alnum_chars s.
Proof.
  unfold chars_in. induction s as [|r s IH]; cbn [isAlphaNumeric list_ascii_of_string].
  - split; [constructor | done].
  - destruct (isAlphaNumericRune r) eqn:E; cbn [negb].
    + rewrite IH. split.
      * intros H. constructor; [by apply isAlphaNumericRune_spec | done].
      * by inversion 1.
    + split; [discriminate |]. inversion 1 as [|? ? Hr _]; subst.
      apply isAlphaNumericRune_spec in Hr. congruence.
Qed.

Lemma eqb_empty_iff s : String.eqb s "" = true <-> String.length s = 0%nat.
Proof. destruct s; cbn; split; (done || discriminate). Qed.

(** X1: [ValidateBarcode] accepts a content exactly when its length is
    between 3 and 50 and all its characters are digits, letters or one of
    [-._/\:;[]()+=] and the space; a rejection names the first failing check
    in the order empty, too short, too long, illegal character, so a content
    that is too long is reported as such whatever its characters. *)
Theorem ValidateBarcode_verdict (s : string) :
  ((ValidateBarcode s).1 = true
     <-> (3 <= String.length s <= 50)%nat /\ chars_in legal_chars s)
  /\ ((ValidateBarcode s).1 = true <-> (ValidateBarcode s).2 = "条码格式有效")
  /\ ((ValidateBarcode s).2 = "条码不能为空" <-> s = "")
  /\ ((ValidateBarcode s).2 = "条码长度太短" <-> (1 <= String.length s < 3)%nat)
  /\ ((ValidateBarcode s).2 = "条码长度太长" <-> (50 < String.length s)%nat)
  /\ ((ValidateBarcode s).2 = "条码包含非法字符"
        <-> (3 <= String.length s <= 50)%nat /\ ~ chars_in legal_chars s).
Proof.
  unfold ValidateBarcode.
  destruct (String.eqb s "") eqn:E0.
  { apply String.eqb_eq in E0. subst s. cbn.
    repeat split; intros; try done; try lia; try discriminate.
    all: by destruct H; lia. }
  assert (Hlen : (0 < String.length s)%nat).
  { destruct s; [discriminate | cbn; lia]. }
  assert (Hne : s <> "") by (intros ->; discriminate).
  destruct (Nat.ltb_spec (String.length s) 3) as [H3|H3].
  { cbn. repeat split; intros; try done; try lia; try discriminate;
      try (by destruct H; lia). }
  destruct (Nat.ltb_spec 50 (String.length s)) as [H50|H50].
  { cbn. repeat split; intros; try done; try lia; try discriminate;
      try (by destruct H; lia). }
  destruct (hasIllegalRune s) eqn:E.
  - assert (Hill : ~ chars_in legal_chars s).
    { intros Hc. apply hasIllegalRune_spec in Hc. congruence. }
    cbn. repeat split; intros; try done; try lia; try discriminate.
    by destruct H.
  - apply hasIllegalRune_spec in E.
    cbn. repeat split; intros; try done; try lia; try discriminate.
    by destruct H.
Qed.

(** *** The numeric types *)

Lemma numeric_type_iff s :
  (GetBarcodeType s = "EAN-8" <-> isAllDigits s = true /\ String.length s = 8%nat)
  /\ (GetBarcodeType s = "UPC-A" <-> isAllDigits s = true /\ String.length s = 12%nat)
  /\ (GetBarcodeType s = "EAN-13" <-> isAllDigits s = true /\ String.length s = 13%nat)
  /\ (GetBarcodeType s = "ITF-14" <-> isAllDigits s = true /\ String.length s = 14%nat).
Proof.
  unfold GetBarcodeType, GetBarcodeType_switch.
  destruct (String.eqb s "") eqn:E0.
  { apply String.eqb_eq in E0. subst s. cbn.
    repeat split; intros; try discriminate; by destruct H. }
  destruct (isAllDigits s) eqn:Hd.
  - destruct (Nat.eqb_spec (String.length s) 8) as [H8|H8];
    [| destruct (Nat.eqb_spec (String.length s) 12) as [H12|H12];
       [| destruct (Nat.eqb_spec (String.length s) 13) as [H13|H13];
          [| destruct (Nat.eqb_spec (String.length s) 14) as [H14|H14]]]];
    cbn [andb];
    repeat match goal with
           | |- context [if ?b then _ else _] => destruct b
           end;
    repeat split; intros; try discriminate; try lia; try done;
    by destruct H; lia.
  - rewrite !andb_false_r.
    repeat match goal with
           | |- context [if ?b then _ else _] => destruct b
           end;
    repeat split; intros; try discriminate; by destruct H.
Qed.

Lemma digits_no_letter_prefix s (a : ascii) p :
  isAllDigits s = true -> isDigitRune a = false ->
  HasPrefix s (String a p) = false.
Proof.
  intros Hd Ha. unfold HasPrefix. destruct s as [|r s]; [done |].
  cbn [String.prefix]. destruct (ascii_dec a r) as [<-|]; [| done].
  cbn [isAllDigits] in Hd. by rewrite Ha in Hd.
Qed.

Lemma isLegal_of_alnum r : isAlphaNumericRune r = true -> isLegalRune r = true.
Proof.
  revert r. refine (all_ascii _ _).
  intros [] [] [] [] [] [] [] []; vm_compute; intros H;
    first [reflexivity | discriminate H].
Qed.

Lemma hasIllegal_of_alnum s : isAlphaNumeric s = true -> hasIllegalRune s = false.
Proof.
  induction s as [|r s IH]; [done |]. cbn [isAlphaNumeric hasIllegalRune].
  destruct (isAlphaNumericRune r) eqn:E; cbn [negb]; [| discriminate].
  rewrite (isLegal_of_alnum r E). exact IH.
Qed.

(** X2: a content of length 3 to 50 made of the characters of
    [isAlphaNumeric] passes [ValidateBarcode]; in particular every content
    that [GetBarcodeType] gives one of the four numeric types does. *)
Theorem alphanumeric_is_valid (s : string) :
  (chars_in alnum_chars s -> (3 <= String.length s <= 50)%nat ->
     ValidateBarcode s = (true, "条码格式有效"))
  /\ (In (GetBarcodeType s) numeric_types ->
     ValidateBarcode s = (true, "条码格式有效")).
Proof.
  assert (Hgen : isAlphaNumeric s = true -> (3 <= String.length s <= 50)%nat ->
                 ValidateBarcode s = (true, "条码格式有效")).
  { intros Ha [H3 H50]. unfold ValidateBarcode.
    rewrite BarcodeFacts.eqb_empty_length by lia.
    destruct (Nat.ltb_spec (String.length s) 3); [lia |].
    destruct (Nat.ltb_spec 50 (String.length s)); [lia |].
    by rewrite hasIllegal_of_alnum. }
  split.
  - intros Hc. apply Hgen. by apply isAlphaNumeric_spec.
  - destruct (numeric_type_iff s) as (H8 & H12 & H13 & H14).
    intros [Ht|[Ht|[Ht|[Ht|[]]]]]; symmetry in Ht;
      [apply H8 in Ht | apply H12 in Ht | apply H13 in Ht | apply H14 in Ht];
      destruct Ht as [Hd Hl];
      (apply Hgen; [by apply BarcodeFacts.isAllDigits_isAlphaNumeric | lia]).
Qed.

Lemma alphanumeric_is_valid_witness :
  chars_in alnum_chars "LOT-2024.A" /\ (3 <= String.length "LOT-2024.A" <= 50)%nat
  /\ ValidateBarcode "LOT-2024.A" = (true, "条码格式有效").
Proof.
  assert (Hc : chars_in alnum_chars "LOT-2024.A")
    by (apply isAlphaNumeric_spec; reflexivity).
  assert (Hl : (3 <= String.length "LOT-2024.A" <= 50)%nat) by (cbn; lia).
  split; [exact Hc |]. split; [exact Hl |].
  exact (proj1 (alphanumeric_is_valid "LOT-2024.A") Hc Hl).
Defined.

(** *** The country table *)

Lemma digit_rune_in r : isDigitRune r = true -> In r digit_runes.
Proof.
  revert r. refine (all_ascii _ _).
  intros [] [] [] [] [] [] [] []; vm_compute; intros H;
    first [discriminate H | tauto].
Qed.

Lemma digit_triple_in s :
  isAllDigits s = true -> (3 <= String.length s)%nat ->
  In (substring 0 3 s) digit_triples.
Proof.
  destruct s as [|a [|b [|c s]]]; cbn [String.length]; try lia.
  cbn [isAllDigits]. intros Hd _.
  destruct (isDigitRune a) eqn:Ea; cbn [negb] in Hd; [| discriminate].
  destruct (isDigitRune b) eqn:Eb; cbn [negb] in Hd; [| discriminate].
  destruct (isDigitRune c) eqn:Ec; cbn [negb] in Hd; [| discriminate].
  change (substring 0 3 (String a (String b (String c s))))
    with (String a (String b (String c (substring 0 0 s)))).
  assert (substring 0 0 s = "") as -> by (by destruct s).
  unfold digit_triples. apply in_flat_map. exists a. split; [by apply digit_rune_in |].
  cbv beta. apply in_flat_map. exists b. split; [by apply digit_rune_in |].
  apply (in_map (fun c' => String a (String b (String c' EmptyString)))).
  by apply digit_rune_in.
Qed.

(** The table, checked on every three-digit prefix. *)
Lemma countryOfPrefix_table :
  forallb (fun cc =>
    negb (String.eqb (countryOfPrefix cc) "菲律宾")
    && (if geString cc "471" && negb (geString cc "690" && leString cc "699")
        then String.eqb (countryOfPrefix cc) "台湾" else true))
    digit_triples = true.
Proof. vm_compute. reflexivity. Qed.

(** X3: [getEAN13CountryCode] never answers "Philippines": the case for
    the prefixes 480 to 489 stands after the open-ended case [>= "471"], which
    takes every prefix from 471 up (those of China, 690 to 699, excepted) and
    answers "Taiwan". *)
Theorem country_never_philippines (s : string) :
  getEAN13CountryCode s <> "菲律宾"
  /\ (digits_only s -> String.length s = 13%nat ->
      geString (substring 0 3 s) "471" = true ->
      geString (substring 0 3 s) "690" && leString (substring 0 3 s) "699" = false ->
      getEAN13CountryCode s = "台湾").
Proof.
  unfold getEAN13CountryCode.
  destruct (Nat.eqb_spec (String.length s) 13) as [Hl|Hl]; cbn [negb orb].
  2: { split; [discriminate | done]. }
  destruct (isAllDigits s) eqn:Hd; cbn [negb].
  2: { split; [discriminate |]. intros Hdig. apply BarcodeFacts.isAllDigits_spec in Hdig.
       congruence. }
  pose proof (digit_triple_in s Hd ltac:(lia)) as Hin.
  pose proof countryOfPrefix_table as Ht.
  rewrite forallb_forall in Ht. specialize (Ht _ Hin).
  apply andb_true_iff in Ht as [Hno Hyes].
  split.
  - intros Heq. rewrite Heq in Hno. discriminate Hno.
  - intros _ _ H471 H690. rewrite H471, H690 in Hyes. cbn [andb negb] in Hyes.
    by apply String.eqb_eq.
Qed.

Lemma country_never_philippines_witness :
  digits_only "4801234567890"
  /\ getEAN13CountryCode "4801234567890" = "台湾".
Proof.
  assert (Hd : digits_only "4801234567890")
    by (apply BarcodeFacts.isAllDigits_spec; reflexivity).
  split; [exact Hd |].
  exact (proj2 (country_never_philippines "4801234567890") Hd eq_refl eq_refl eq_refl).
Defined.

(** *** Strings: slices *)

Lemma length_append (a b : string) :
  String.length (a +:+ b) = (String.length a + String.length b)%nat.
Proof.
  induction a as [|x a IH]; [done |].
  rewrite ScannerFacts.append_cons. cbn [String.length]. by rewrite IH.
Qed.

Lemma substring_all (a : string) : substring 0 (String.length a) a = a.
Proof. induction a as [|x a IH]; [done |]. cbn [String.length substring]. by rewrite IH. Qed.

Lemma substring_skip (p a : string) n :
  substring (String.length p) n (p +:+ a) = substring 0 n a.
Proof.
  induction p as [|x p IH]; [done |].
  rewrite ScannerFacts.append_cons. cbn [String.length substring]. exact IH.
Qed.

(** [TrimPrefix] removes what [HasPrefix] found. *)
Lemma TrimPrefix_restore s p : HasPrefix s p = true -> p +:+ TrimPrefix s p = s.
Proof.
  intros H. unfold TrimPrefix. rewrite H. unfold HasPrefix in H.
  apply BarcodeFacts.prefix_split in H as [a ->].
  rewrite substring_skip, length_append.
  replace (String.length p + String.length a - String.length p)%nat
    with (String.length a) by lia.
  by rewrite substring_all.
Qed.

(** *** The map of [GetBarcodeInfo] *)

Ltac info_lookup :=
  repeat first [ rewrite lookup_insert_eq
               | rewrite lookup_insert_ne by discriminate
               | rewrite lookup_empty ].

Ltac info_cases s :=
  unfold GetBarcodeInfo; cbv zeta;
  destruct (String.eqb (GetBarcodeType s) "EAN-13") eqn:E1;
  [ apply String.eqb_eq in E1; rewrite ?E1
  | destruct (String.eqb (GetBarcodeType s) "UPC-A") eqn:E2;
    [ apply String.eqb_eq in E2; rewrite ?E2
    | destruct (String.eqb (GetBarcodeType s) "产品条码") eqn:E3;
      [ apply String.eqb_eq in E3; rewrite ?E3
      | destruct (String.eqb (GetBarcodeType s) "批次条码") eqn:E4;
        [ apply String.eqb_eq in E4; rewrite ?E4
        | destruct (String.eqb (GetBarcodeType s) "序列号条码") eqn:E5;
          [ apply String.eqb_eq in E5; rewrite ?E5 | ] ] ] ] ];
  info_lookup; try reflexivity.

Lemma info_country s :
  GetBarcodeInfo s !! "country_code" =
    if String.eqb (GetBarcodeType s) "EAN-13"
    then Some (VString (getEAN13CountryCode s)) else None.
Proof. info_cases s. Qed.

Lemma info_manufacturer s :
  GetBarcodeInfo s !! "manufacturer_code" =
    if String.eqb (GetBarcodeType s) "UPC-A"
    then Some (VString (getUPCAManufacturerCode s)) else None.
Proof. info_cases s. Qed.

Lemma info_product s :
  GetBarcodeInfo s !! "product_id" =
    if String.eqb (GetBarcodeType s) "产品条码"
    then Some (VString (TrimPrefix s "PRD")) else None.
Proof. info_cases s. Qed.

Lemma info_lot s :
  GetBarcodeInfo s !! "lot_number" =
    if String.eqb (GetBarcodeType s) "批次条码"
    then Some (VString (TrimPrefix s "LOT")) else None.
Proof. info_cases s. Qed.

Lemma info_serial s :
  GetBarcodeInfo s !! "serial_number" =
    if String.eqb (GetBarcodeType s) "序列号条码"
    then Some (VString (TrimPrefix s "SN")) else None.
Proof. info_cases s. Qed.

Lemma prefix_type_inv s :
  (GetBarcodeType s = "产品条码" ->
     HasPrefix s "PRD" = true /\ isAlphaNumeric s = false)
  /\ (GetBarcodeType s = "批次条码" ->
     HasPrefix s "LOT" = true /\ HasPrefix s "PRD" = false
     /\ isAlphaNumeric s = false)
  /\ (GetBarcodeType s = "序列号条码" ->
     HasPrefix s "SN" = true /\ HasPrefix s "PRD" = false
     /\ HasPrefix s "LOT" = false /\ isAlphaNumeric s = false).
Proof.
  unfold GetBarcodeType, GetBarcodeType_switch.
  repeat match goal with
         | |- context [if ?b then _ else _] => destruct b eqn:?
         end;
    repeat split; intros; try discriminate; done.
Qed.

Lemma countryOfPrefix_known cc : countryOfPrefix cc <> "未知".
Proof.
  unfold countryOfPrefix.
  repeat match goal with
         | |- context [if ?b then _ else _] => destruct b
         end; discriminate.
Qed.

Lemma isAllDigits_substring s : forall n,
  isAllDigits s = true -> isAllDigits (substring 0 n s) = true.
Proof.
  induction s as [|r s IH]; intros [|n]; try done.
  cbn [isAllDigits substring]. destruct (isDigitRune r); cbn [negb]; [| done].
  apply IH.
Qed.

(** X4: in the map of [GetBarcodeInfo] the entry [country_code] exists
    exactly for the type EAN-13 and holds the answer of the country table
    for the first three digits; [manufacturer_code] exists exactly for UPC-A
    and holds the first six characters, all digits.  The fallback answer
    "unknown" of the two helper functions never reaches the map. *)
Theorem info_numeric_entries (s : string) (v : InfoValue) :
  (GetBarcodeInfo s !! "country_code" = Some v
     <-> GetBarcodeType s = "EAN-13"
         /\ v = VString (countryOfPrefix (substring 0 3 s)))
  /\ (GetBarcodeInfo s !! "manufacturer_code" = Some v
     <-> GetBarcodeType s = "UPC-A" /\ v = VString (substring 0 6 s)
         /\ digits_only (substring 0 6 s))
  /\ GetBarcodeInfo s !! "country_code" <> Some (VString "未知")
  /\ GetBarcodeInfo s !! "manufacturer_code" <> Some (VString "未知").
Proof.
  destruct (numeric_type_iff s) as (_ & H12 & H13 & _).
  assert (Hc : forall w, GetBarcodeInfo s !! "country_code" = Some w
     <-> GetBarcodeType s = "EAN-13"
         /\ w = VString (countryOfPrefix (substring 0 3 s))).
  { intros w. rewrite info_country.
    destruct (String.eqb_spec (GetBarcodeType s) "EAN-13") as [Ht|Ht].
    - destruct (proj1 H13 Ht) as [Hd Hl]. unfold getEAN13CountryCode.
      rewrite Hd, Hl. cbn [Nat.eqb negb orb]. split.
      + by intros [= <-].
      + by intros [_ ->].
    - split; [discriminate | by intros [? _]]. }
  assert (Hm : forall w, GetBarcodeInfo s !! "manufacturer_code" = Some w
     <-> GetBarcodeType s = "UPC-A" /\ w = VString (substring 0 6 s)
         /\ digits_only (substring 0 6 s)).
  { intros w. rewrite info_manufacturer.
    destruct (String.eqb_spec (GetBarcodeType s) "UPC-A") as [Ht|Ht].
    - destruct (proj1 H12 Ht) as [Hd Hl]. unfold getUPCAManufacturerCode.
      rewrite Hd, Hl. cbn [Nat.eqb negb orb]. split.
      + intros [= <-]. split; [done |]. split; [done |].
        by apply BarcodeFacts.isAllDigits_spec, isAllDigits_substring.
      + by intros (_ & -> & _).
    - split; [discriminate | by intros [? _]]. }
  split; [apply Hc |]. split; [apply Hm |]. split.
  - intros H. apply Hc in H as [_ [= H]]. symmetry in H.
    by apply countryOfPrefix_known in H.
  - intros H. apply Hm in H as (_ & [= H] & Hd). rewrite <- H in Hd.
    apply BarcodeFacts.isAllDigits_spec in Hd. discriminate Hd.
Qed.

(** X5: the entries [product_id], [lot_number] and [serial_number] of the
    map of [GetBarcodeInfo], when present, give back the content once the
    prefix PRD, LOT or SN is put in front of them; they are present only for
    a content that has a character outside the alphanumeric set. *)
Theorem info_prefix_entries (s p : string) :
  (GetBarcodeInfo s !! "product_id" = Some (VString p) ->
     s = "PRD" +:+ p /\ ~ chars_in alnum_chars s)
  /\ (GetBarcodeInfo s !! "lot_number" = Some (VString p) ->
     s = "LOT" +:+ p /\ ~ chars_in alnum_chars s)
  /\ (GetBarcodeInfo s !! "serial_number" = Some (VString p) ->
     s = "SN" +:+ p /\ ~ chars_in alnum_chars s)
  /\ (chars_in alnum_chars s ->
     GetBarcodeInfo s !! "product_id" = None
     /\ GetBarcodeInfo s !! "lot_number" = None
     /\ GetBarcodeInfo s !! "serial_number" = None).
Proof.
  destruct (prefix_type_inv s) as (Hp & Hl & Hs).
  assert (Hna : isAlphaNumeric s = false -> ~ chars_in alnum_chars s).
  { intros Hf Hc. apply isAlphaNumeric_spec in Hc. congruence. }
  rewrite info_product, info_lot, info_serial.
  split; [| split; [| split]].
  - destruct (String.eqb_spec (GetBarcodeType s) "产品条码") as [Ht|Ht];
      [| discriminate].
    intros [= <-]. destruct (Hp Ht) as [Hpre Hal].
    split; [symmetry; by apply TrimPrefix_restore | by apply Hna].
  - destruct (String.eqb_spec (GetBarcodeType s) "批次条码") as [Ht|Ht];
      [| discriminate].
    intros [= <-]. destruct (Hl Ht) as (Hpre & _ & Hal).
    split; [symmetry; by apply TrimPrefix_restore | by apply Hna].
  - destruct (String.eqb_spec (GetBarcodeType s) "序列号条码") as [Ht|Ht];
      [| discriminate].
    intros [= <-]. destruct (Hs Ht) as (Hpre & _ & _ & Hal).
    split; [symmetry; by apply TrimPrefix_restore | by apply Hna].
  - intros Hc. apply isAlphaNumeric_spec in Hc.
    destruct (String.eqb_spec (GetBarcodeType s) "产品条码") as [Ht|Ht].
    { destruct (Hp Ht). congruence. }
    destruct (String.eqb_spec (GetBarcodeType s) "批次条码") as [Ht'|Ht'].
    { destruct (Hl Ht') as (_ & _ & ?). congruence. }
    destruct (String.eqb_spec (GetBarcodeType s) "序列号条码") as [Ht''|Ht''].
    { destruct (Hs Ht'') as (_ & _ & _ & ?). congruence. }
    done.
Qed.

Lemma info_prefix_entries_witness :
  GetBarcodeInfo "PRD/99" !! "product_id" = Some (VString "/99")
  /\ "PRD/99" = "PRD" +:+ "/99".
Proof.
  assert (H : GetBarcodeInfo "PRD/99" !! "product_id" = Some (VString "/99"))
    by (vm_compute; reflexivity).
  split; [exact H |].
  exact (proj1 (proj1 (info_prefix_entries "PRD/99" "/99") H)).
Defined.

(** *** Type and message *)

Lemma digits_no_prefixes s :
  isAllDigits s = true ->
  HasPrefix s "PRD" = false /\ HasPrefix s "LOT" = false /\ HasPrefix s "SN" = false.
Proof.
  intros Hd. repeat split; by apply digits_no_letter_prefix.
Qed.

Lemma message_numeric_iff s :
  (generateMessage s = numericMessage "EAN-8"
     <-> isAllDigits s = true /\ String.length s = 8%nat)
  /\ (generateMessage s = numericMessage "UPC-A"
     <-> isAllDigits s = true /\ String.length s = 12%nat)
  /\ (generateMessage s = numericMessage "EAN-13"
     <-> isAllDigits s = true /\ String.length s = 13%nat)
  /\ (generateMessage s = numericMessage "ITF-14"
     <-> isAllDigits s = true /\ String.length s = 14%nat).
Proof.
  change (numericMessage "EAN-8") with "识别为EAN-8条码，正在处理...".
  change (numericMessage "UPC-A") with "识别为UPC-A条码，正在处理...".
  change (numericMessage "EAN-13") with "识别为EAN-13条码，正在验证...".
  change (numericMessage "ITF-14") with "识别为ITF-14条码，正在处理...".
  unfold generateMessage.
  destruct (isAllDigits s) eqn:Hd.
  - destruct (digits_no_prefixes s Hd) as (-> & -> & ->).
    destruct (Nat.eqb_spec (String.length s) 13) as [H13|H13];
    [| destruct (Nat.eqb_spec (String.length s) 12) as [H12|H12];
       [| destruct (Nat.eqb_spec (String.length s) 8) as [H8|H8];
          [| destruct (Nat.eqb_spec (String.length s) 14) as [H14|H14]]]];
    cbn [andb];
    repeat split; intros; try discriminate; try lia; try done;
    by destruct H; lia.
  - rewrite !andb_false_r.
    repeat match goal with
           | |- context [if ?b then _ else _] => destruct b
           end;
    repeat split; intros; try discriminate; by destruct H.
Qed.

(** X6: for the four numeric types the type tag and the message of a
    content always agree: [GetBarcodeType] answers EAN-8, UPC-A, EAN-13 or
    ITF-14 exactly when [generateMessage] gives the message of that type.
    When the type is one of the three prefix types, the message is the one of
    that prefix. *)
Theorem type_and_message_agree (s ty : string) :
  In ty numeric_types ->
  (GetBarcodeType s = ty <-> generateMessage s = numericMessage ty)
  /\ (GetBarcodeType s = "产品条码" ->
        generateMessage s = "识别为产品条码，正在查询产品信息...")
  /\ (GetBarcodeType s = "批次条码" ->
        generateMessage s = "识别为批次条码，正在查询批次信息...")
  /\ (GetBarcodeType s = "序列号条码" ->
        generateMessage s = "识别为序列号条码，正在验证序列号...").
Proof.
  intros Hty.
  destruct (numeric_type_iff s) as (T8 & T12 & T13 & T14).
  destruct (message_numeric_iff s) as (M8 & M12 & M13 & M14).
  destruct (prefix_type_inv s) as (Hp & Hl & Hs).
  split.
  { destruct Hty as [<-|[<-|[<-|[<-|[]]]]].
    - by rewrite T8, M8.
    - by rewrite T12, M12.
    - by rewrite T13, M13.
    - by rewrite T14, M14. }
  unfold generateMessage. split; [| split].
  - intros Ht. destruct (Hp Ht) as [-> _]. reflexivity.
  - intros Ht. destruct (Hl Ht) as (-> & -> & _). reflexivity.
  - intros Ht. destruct (Hs Ht) as (-> & -> & -> & _). reflexivity.
Qed.

Lemma type_and_message_agree_witness :
  In "EAN-13" numeric_types
  /\ (GetBarcodeType "1234567890123" = "EAN-13"
      <-> generateMessage "1234567890123" = numericMessage "EAN-13").
Proof.
  assert (H : In "EAN-13" numeric_types) by (cbn; tauto).
  split; [exact H |].
  exact (proj1 (type_and_message_agree "1234567890123" "EAN-13" H)).
Defined.

(** X7: for a non-empty content the alphabet decides the family of the
    type: the content is made of alphanumeric characters exactly when the
    type is Code 128 or numeric, and has another character exactly when the
    type is a prefix type or "other"; an all-digit content whose length is
    not 8, 12, 13 or 14 is Code 128. *)
Theorem type_family_by_alphabet (s : string) :
  s <> "" ->
  (chars_in alnum_chars s <-> In (GetBarcodeType s) ("Code 128" :: numeric_types))
  /\ (~ chars_in alnum_chars s
      <-> In (GetBarcodeType s) ["产品条码"; "批次条码"; "序列号条码"; "其他类型"])
  /\ (digits_only s -> ~ In (String.length s) [8; 12; 13; 14]%nat ->
      GetBarcodeType s = "Code 128").
Proof.
  intros Hne. rewrite <- isAlphaNumeric_spec.
  assert (E0 : String.eqb s "" = false) by (by apply String.eqb_neq).
  unfold GetBarcodeType, GetBarcodeType_switch. rewrite E0.
  destruct (isAlphaNumeric s) eqn:Ha.
  - split; [| split].
    + split; [intros _ | done].
      repeat match goal with
             | |- context [if ?b then _ else _] => destruct b
             end; cbn; tauto.
    + split; [done |].
      repeat match goal with
             | |- context [if ?b then _ else _] => destruct b
             end; cbn; intros H;
        repeat (destruct H as [H|H]; [discriminate H |]); destruct H.
    + intros Hd Hl. apply BarcodeFacts.isAllDigits_spec in Hd. rewrite Hd.
      destruct (Nat.eqb_spec (String.length s) 8);
        [exfalso; apply Hl; cbn; lia |].
      destruct (Nat.eqb_spec (String.length s) 12);
        [exfalso; apply Hl; cbn; lia |].
      destruct (Nat.eqb_spec (String.length s) 13);
        [exfalso; apply Hl; cbn; lia |].
      destruct (Nat.eqb_spec (String.length s) 14);
        [exfalso; apply Hl; cbn; lia |].
      reflexivity.
  - assert (Hd : isAllDigits s = false).
    { destruct (isAllDigits s) eqn:Hd; [| done].
      apply BarcodeFacts.isAllDigits_isAlphaNumeric in Hd. congruence. }
    rewrite Hd, !andb_false_r. split; [| split].
    + split; [discriminate |].
      repeat match goal with
             | |- context [if ?b then _ else _] => destruct b
             end; cbn; intros H;
        repeat (destruct H as [H|H]; [discriminate H |]); destruct H.
    + split; [intros _ | intros _; discriminate].
      repeat match goal with
             | |- context [if ?b then _ else _] => destruct b
             end; cbn; tauto.
    + intros Hdig. apply BarcodeFacts.isAllDigits_spec in Hdig. congruence.
Qed.

Lemma type_family_by_alphabet_witness :
  "1234567890" <> ""
  /\ GetBarcodeType "1234567890" = "Code 128".
Proof.
  assert (Hne : "1234567890" <> "") by discriminate.
  assert (Hd : digits_only "1234567890")
    by (apply BarcodeFacts.isAllDigits_spec; reflexivity).
  assert (Hl : ~ In (String.length "1234567890") [8; 12; 13; 14]%nat)
    by (cbn; lia).
  split; [exact Hne |].
  exact (proj2 (proj2 (type_family_by_alphabet "1234567890" Hne)) Hd Hl).
Defined.

End ProcessorFacts.

(* ===================================================================== *)
(** ** Facts about the dispatch of the service *)
(* ===================================================================== *)

Module ServiceFacts.
Import Barcode Service.

Lemma prefix_not_digits s (a : ascii) p :
  HasPrefix s (String a p) = true -> isDigitRune a = false -> isAllDigits s = false.
Proof.
  intros Hp Ha. destruct (isAllDigits s) eqn:Hd; [| done].
  by rewrite (ProcessorFacts.digits_no_letter_prefix s a p Hd Ha) in Hp.
Qed.

(** X9: on the payload of any content, [executeBusinessLogic] calls the
    product, lot or serial handler exactly when [generateMessage] announced a
    product, lot or serial barcode; it calls the standard handler exactly
    when the type is EAN-13 or UPC-A; EAN-8 and ITF-14 go to the generic
    handler. *)
Theorem dispatch_follows_message (content : string) (t : Z) :
  let d := ProcessBarcode content t in
  (executeBusinessLogic d = handleProductBarcode
     <-> Message d = "识别为产品条码，正在查询产品信息...")
  /\ (executeBusinessLogic d = handleLotBarcode
     <-> Message d = "识别为批次条码，正在查询批次信息...")
  /\ (executeBusinessLogic d = handleSerialBarcode
     <-> Message d = "识别为序列号条码，正在验证序列号...")
  /\ (executeBusinessLogic d = handleStandardBarcode
     <-> Type_ d = "EAN-13" \/ Type_ d = "UPC-A")
  /\ (Type_ d = "EAN-8" \/ Type_ d = "ITF-14" ->
      executeBusinessLogic d = handleGenericBarcode).
Proof.
  cbv zeta. unfold executeBusinessLogic, ProcessBarcode.
  cbn [Content Type_ Message].
  destruct (ProcessorFacts.numeric_type_iff content) as (T8 & T12 & T13 & T14).
  assert (Hnum : forall (a : ascii) p, HasPrefix content (String a p) = true ->
            isDigitRune a = false ->
            GetBarcodeType content <> "EAN-8" /\ GetBarcodeType content <> "UPC-A"
            /\ GetBarcodeType content <> "EAN-13"
            /\ GetBarcodeType content <> "ITF-14").
  { intros a p Hp Ha. pose proof (prefix_not_digits content a p Hp Ha) as Hd.
    repeat split; intros Ht;
      [apply T8 in Ht | apply T12 in Ht | apply T13 in Ht | apply T14 in Ht];
      destruct Ht; congruence. }
  unfold generateMessage.
  destruct (HasPrefix content "PRD") eqn:P1.
  { destruct (Hnum _ _ P1 eq_refl) as (N8 & N12 & N13 & N14).
    repeat split; intros; try discriminate; try done; tauto. }
  destruct (HasPrefix content "LOT") eqn:P2.
  { destruct (Hnum _ _ P2 eq_refl) as (N8 & N12 & N13 & N14).
    repeat split; intros; try discriminate; try done; tauto. }
  destruct (HasPrefix content "SN") eqn:P3.
  { destruct (Hnum _ _ P3 eq_refl) as (N8 & N12 & N13 & N14).
    repeat split; intros; try discriminate; try done; tauto. }
  destruct (String.eqb_spec (GetBarcodeType content) "EAN-13") as [E13|E13].
  { cbn [orb]. destruct (proj1 T13 E13) as [-> ->]. cbn.
    repeat split; intros; try discriminate; try done; try tauto.
    destruct H as [H|H]; rewrite E13 in H; discriminate H. }
  destruct (String.eqb_spec (GetBarcodeType content) "UPC-A") as [E12|E12].
  { cbn [orb]. destruct (proj1 T12 E12) as [-> ->]. cbn.
    repeat split; intros; try discriminate; try done; try tauto.
    destruct H as [H|H]; rewrite E12 in H; discriminate H. }
  cbn [orb].
  repeat match goal with
         | |- context [if ?b then _ else _] => destruct b
         end;
    repeat split; intros; try discriminate; try done; tauto.
Qed.

End ServiceFacts.

(* ===================================================================== *)
(** ** Further facts about the keyboard hook *)
(* ===================================================================== *)

Module HookFacts.
Import Scanner ScannerFacts.
Local Open Scope Z_scope.

Lemma guard_reflect ev : passes_guard ev = true <-> is_keydown ev.
Proof.
  unfold passes_guard, is_keydown. rewrite andb_true_iff, Z.leb_le, Z.eqb_eq. tauto.
Qed.

(** The step function by kind of notification, in one statement. *)
Lemma step_cases h ev :
  (passes_guard ev = false /\ keyboardHookProc h ev = (h, []))
  \/ (is_keydown ev /\ isCharacterKey (vkCode ev) = true)
  \/ (is_keydown ev /\ vkCode ev = VK_RETURN)
  \/ (is_keydown ev /\ isCharacterKey (vkCode ev) = false /\ vkCode ev <> VK_RETURN).
Proof.
  destruct (passes_guard ev) eqn:G.
  - apply guard_reflect in G. right.
    destruct (isCharacterKey (vkCode ev)) eqn:Hc; [by left |].
    destruct (Z.eq_dec (vkCode ev) VK_RETURN); [right; by left | right; by right].
  - left. split; [done |]. by apply step_not_keydown.
Qed.

Lemma getChar_not_key vk :
  isCharacterKey vk = false -> getCharFromVirtualKey vk = zero.
Proof.
  unfold isCharacterKey, getCharFromVirtualKey. intros H.
  repeat (apply orb_false_iff in H as [H ?]).
  repeat match goal with
         | Hb : ?b = false |- context [if ?b then _ else _] => rewrite Hb
         end.
  reflexivity.
Qed.

Lemma hookRune_getChar vk :
  isCharacterKey vk = true -> hookRune (getCharFromVirtualKey vk) = true.
Proof.
  unfold isCharacterKey, getCharFromVirtualKey, hookRune.
  destruct ((0x30 <=? vk) && (vk <=? 0x39)) eqn:E1.
  { intros _. apply andb_true_iff in E1 as [?%Z.leb_le ?%Z.leb_le].
    rewrite code_byte by lia.
    assert ((Barcode.code "0" <=? Z.to_N vk)%N && (Z.to_N vk <=? Barcode.code "9")%N
            = true) as ->; [| done].
    apply andb_true_iff. split; apply N.leb_le; cbn; lia. }
  destruct ((0x41 <=? vk) && (vk <=? 0x5A)) eqn:E2.
  { intros _. apply andb_true_iff in E2 as [?%Z.leb_le ?%Z.leb_le].
    rewrite code_byte by lia.
    assert ((Barcode.code "A" <=? Z.to_N vk)%N && (Z.to_N vk <=? Barcode.code "Z")%N
            = true) as ->; [| by rewrite orb_true_r].
    apply andb_true_iff. split; apply N.leb_le; cbn; lia. }
  destruct ((0x60 <=? vk) && (vk <=? 0x69)) eqn:E3.
  { intros _. apply andb_true_iff in E3 as [?%Z.leb_le ?%Z.leb_le].
    rewrite code_byte by lia.
    assert ((Barcode.code "0" <=? Z.to_N (vk - 96 + 48))%N
            && (Z.to_N (vk - 96 + 48) <=? Barcode.code "9")%N = true) as ->; [| done].
    apply andb_true_iff. split; apply N.leb_le; cbn; lia. }
  repeat match goal with
         | |- context [if ?b then _ else _] => destruct b; [reflexivity |]
         end.
  cbn. discriminate.
Qed.

(** X10: the key table and the character table of the Hook agree:
    [getCharFromVirtualKey] answers the zero byte exactly for the keys that
    [isCharacterKey] refuses, and for the others a digit, a capital letter or
    one of [-=[]\;',./].  So the zero test in the hook procedure never drops
    a character key: such a key-down makes the candidate one character
    longer. *)
Theorem character_tables_agree (h : Hook) (ev : KeyEvent) :
  (Barcode.code (getCharFromVirtualKey (vkCode ev)) = 0%N
     <-> isCharacterKey (vkCode ev) = false)
  /\ (isCharacterKey (vkCode ev) = true ->
      hookRune (getCharFromVirtualKey (vkCode ev)) = true)
  /\ (is_keydown ev -> isCharacterKey (vkCode ev) = true ->
      len (barcodeBuffer (keyboardHookProc h ev).1) = len (candidate h ev) + 1).
Proof.
  split; [| split].
  - split.
    + intros H0. destruct (isCharacterKey (vkCode ev)) eqn:Hc; [| done].
      apply getChar_nonzero in Hc. apply N.eqb_neq in Hc. congruence.
    + intros Hc. by rewrite getChar_not_key.
  - apply hookRune_getChar.
  - intros Hk Hc. rewrite step_char by done. cbn [fst barcodeBuffer].
    unfold len. rewrite ProcessorFacts.length_append. cbn [String.length]. lia.
Qed.

Lemma character_tables_agree_witness :
  is_keydown (keydown 0x41 7)
  /\ len (barcodeBuffer (keyboardHookProc hookABC (keydown 0x41 7)).1)
     = len (candidate hookABC (keydown 0x41 7)) + 1.
Proof.
  split; [apply keydown_is_keydown |].
  exact (proj2 (proj2 (character_tables_agree hookABC (keydown 0x41 7)))
           (keydown_is_keydown _ _) eq_refl).
Defined.

(** *** Keypad digits *)

Lemma to_numpad_step h ev :
  keyboardHookProc h (to_numpad ev) = keyboardHookProc h ev.
Proof.
  destruct ev as [nc wp vk t]. unfold to_numpad. cbn [nCode wParam vkCode now].
  destruct ((0x30 <=? vk) && (vk <=? 0x39)) eqn:E; [| done].
  apply andb_true_iff in E as [H1%Z.leb_le H2%Z.leb_le].
  destruct (passes_guard (mkKeyEvent nc wp vk t)) eqn:G.
  - assert (Hk : is_keydown (mkKeyEvent nc wp vk t)) by (by apply guard_reflect).
    assert (Hk' : is_keydown (mkKeyEvent nc wp (vk + 48) t)) by exact Hk.
    assert (Hc : isCharacterKey vk = true).
    { unfold isCharacterKey.
      destruct (Z.leb_spec 48 vk); [| lia]. destruct (Z.leb_spec vk 57); [| lia].
      reflexivity. }
    assert (Hc' : isCharacterKey (vk + 48) = true).
    { unfold isCharacterKey.
      destruct (Z.leb_spec 96 (vk + 48)); [| lia].
      destruct (Z.leb_spec (vk + 48) 105); [| lia].
      by rewrite !orb_true_r. }
    rewrite (step_char h _ Hk' Hc'), (step_char h _ Hk Hc).
    cbn [vkCode]. f_equal. f_equal. f_equal. f_equal.
    unfold getCharFromVirtualKey.
    destruct (Z.leb_spec 48 (vk + 48)); [| lia].
    destruct (Z.leb_spec (vk + 48) 57); [lia |].
    destruct (Z.leb_spec 65 (vk + 48)); [| lia].
    destruct (Z.leb_spec (vk + 48) 90); [lia |].
    destruct (Z.leb_spec 96 (vk + 48)); [| lia].
    destruct (Z.leb_spec (vk + 48) 105); [| lia].
    destruct (Z.leb_spec 48 vk); [| lia]. destruct (Z.leb_spec vk 57); [| lia].
    cbn [andb]. f_equal. lia.
  - rewrite !step_not_keydown; done.
Qed.

(** X11: a digit typed on the numeric keypad counts as the same digit typed
    on the top row: replacing, in any stream of notifications, the top-row
    digit keys by the keypad keys of the same digits changes neither the
    payloads emitted nor the final state of the Hook. *)
Theorem numpad_digits_equivalent (h : Hook) (evs : list KeyEvent) :
  run h (map to_numpad evs) = run h evs.
Proof.
  revert h. induction evs as [|ev rest IH]; intros h; [done |].
  cbn [map]. rewrite !run_cons, to_numpad_step. by rewrite IH.
Qed.

(** X12: notifications that fail the guard of the hook procedure (key
    releases, system keys, negative codes) are invisible: removing them from
    any stream changes neither the payloads emitted nor the final state. *)
Theorem ignored_notifications_invisible (h : Hook) (evs : list KeyEvent) :
  run h (List.filter passes_guard evs) = run h evs.
Proof.
  revert h. induction evs as [|ev rest IH]; intros h; [done |].
  cbn [List.filter]. destruct (passes_guard ev) eqn:G.
  - rewrite !run_cons. by rewrite IH.
  - rewrite run_cons, step_not_keydown by exact G. cbn [fst snd app].
    rewrite IH. by destruct (run h rest).
Qed.

Lemma step_emits_le h ev :
  (length (keyboardHookProc h ev).2 <= if is_return_keydown ev then 1 else 0)%nat.
Proof.
  unfold is_return_keydown.
  destruct (step_cases h ev) as [[G ->]|[[Hk Hc]|[[Hk Hv]|(Hk & Hc & Hv)]]].
  - rewrite G. cbn. lia.
  - rewrite step_char by done. cbn. lia.
  - rewrite step_return by done. cbn [snd].
    rewrite (proj2 (guard_reflect ev) Hk), Hv. cbn [andb].
    change (VK_RETURN =? VK_RETURN) with true. cbv iota.
    destruct (_ && _); [destruct (handler h) |]; cbn; lia.
  - rewrite step_other by done. cbn. lia.
Qed.

(** X13: the Hook emits at most one payload per terminator key-down and
    none on any other notification; a stream without terminator key-down
    emits nothing. *)
Theorem payloads_bounded_by_terminators (h : Hook) (evs : list KeyEvent) :
  (length (run h evs).2 <= length (List.filter is_return_keydown evs))%nat
  /\ (List.filter is_return_keydown evs = [] -> (run h evs).2 = []).
Proof.
  assert (Hle : forall h',
    (length (run h' evs).2 <= length (List.filter is_return_keydown evs))%nat).
  { induction evs as [|ev rest IH]; intros h'; [done |].
    rewrite run_cons. cbn [snd List.filter]. rewrite length_app.
    pose proof (step_emits_le h' ev) as H1.
    pose proof (IH (keyboardHookProc h' ev).1) as H2.
    destruct (is_return_keydown ev); cbn [length]; lia. }
  split; [apply Hle |].
  intros Hnil. specialize (Hle h). rewrite Hnil in Hle.
  destruct (run h evs).2; [done | cbn in Hle; lia].
Qed.

(** *** What an emitted payload looks like *)

Lemma hookString_app a b : hookString (a +:+ b) = hookString a && hookString b.
Proof.
  induction a as [|x a IH]; [done |].
  rewrite append_cons. cbn [hookString]. by rewrite IH, andb_assoc.
Qed.

Lemma candidate_hookString h ev :
  hookString (barcodeBuffer h) = true -> hookString (candidate h ev) = true.
Proof. intros H. unfold candidate. by destruct (_ >? _). Qed.

Lemma step_hookString h ev :
  hookString (barcodeBuffer h) = true ->
  hookString (barcodeBuffer (keyboardHookProc h ev).1) = true.
Proof.
  intros H. pose proof (candidate_hookString h ev H) as Hc.
  destruct (step_cases h ev) as [[G ->]|[[Hk Hch]|[[Hk Hv]|(Hk & Hch & Hv)]]].
  - exact H.
  - rewrite step_char by done. cbn [fst barcodeBuffer].
    rewrite hookString_app, Hc. cbn [hookString andb].
    by rewrite hookRune_getChar.
  - by rewrite step_return.
  - by rewrite step_other.
Qed.

Lemma step_emitted_shape h ev p :
  handler h = Some Handlers.HandleBarcode ->
  In p (keyboardHookProc h ev).2 ->
  p = Barcode.ProcessBarcode (candidate h ev) (now ev)
  /\ is_return_keydown ev = true
  /\ in_range (config h) (candidate h ev).
Proof.
  intros Hh Hin.
  destruct (step_cases h ev) as [[G Heq]|[[Hk Hch]|[[Hk Hv]|(Hk & Hch & Hv)]]].
  - rewrite Heq in Hin. destruct Hin.
  - rewrite step_char in Hin by done. destruct Hin.
  - rewrite step_return in Hin by done. cbn [snd] in Hin.
    destruct (_ && _) eqn:Hr in Hin; [| destruct Hin].
    apply in_range_b in Hr. rewrite Hh in Hin. destruct Hin as [<-|[]].
    split; [done |]. split; [| done].
    unfold is_return_keydown. rewrite (proj2 (guard_reflect ev) Hk), Hv. done.
  - rewrite step_other in Hin by done. destruct Hin.
Qed.


Lemma run_emitted_content evs : forall h p,
  hookString (barcodeBuffer h) = true ->
  handler h = Some Handlers.HandleBarcode ->
  In p (run h evs).2 ->
  p = Barcode.ProcessBarcode (Barcode.Content p) (Barcode.Timestamp p)
  /\ hookString (Barcode.Content p) = true.
Proof.
  induction evs as [|ev rest IH]; intros h p Hb Hh Hin; [destruct Hin |].
  rewrite run_cons in Hin. cbn [snd] in Hin.
  apply in_app_or in Hin as [Hin|Hin].
  - destruct (step_emitted_shape h ev p Hh Hin) as (-> & _ & _).
    split; [done |]. by apply candidate_hookString.
  - destruct (step_config_handler h ev) as [_ Hd].
    apply (IH (keyboardHookProc h ev).1); [by apply step_hookString | | done].
    by rewrite Hd.
Qed.



Lemma hookRune_legal r :
  hookRune r = true ->
  negb (Barcode.isLegalRune r)
  = (Barcode.code r =? Barcode.code "'")%N || (Barcode.code r =? Barcode.code ",")%N.
Proof.
  revert r. refine (ProcessorFacts.all_ascii _ _).
  intros [] [] [] [] [] [] [] []; vm_compute; intros H;
    first [reflexivity | discriminate H].
Qed.

Lemma hookString_illegal s :
  hookString s = true -> Barcode.hasIllegalRune s = hasQuoteOrComma s.
Proof.
  induction s as [|r s IH]; [done |].
  cbn [hookString Barcode.hasIllegalRune hasQuoteOrComma].
  intros [Hr Hs]%andb_true_iff. rewrite <- (hookRune_legal r Hr), (IH Hs).
  by destruct (negb (Barcode.isLegalRune r)).
Qed.

(** X15: two of the characters the Hook can type, the quote and the comma,
    are not accepted by [ValidateBarcode].  With a minimum length of at least
    3 and a maximum of at most 50 (the defaults), a payload emitted by the
    Hook passes [ValidateBarcode] exactly when its content holds neither of
    the two; otherwise it is rejected for an illegal character, never for its
    length. *)
Theorem emitted_payload_validation (h : Hook) (evs : list KeyEvent)
    (p : Barcode.BarcodeData) :
  hookString (barcodeBuffer h) = true ->
  handler h = Some Handlers.HandleBarcode ->
  3 <= MinLength (config h) -> MaxLength (config h) <= 50 ->
  In p (run h evs).2 ->
  Barcode.ValidateBarcode (Barcode.Content p)
  = if hasQuoteOrComma (Barcode.Content p)
    then (false, "条码包含非法字符") else (true, "条码格式有效").
Proof.
  intros Hb Hh Hmin Hmax Hin.
  destruct (run_emitted_content evs h p Hb Hh Hin) as [Hp Hs].
  pose proof (run_emitted_in_range evs h p Hh Hin) as Hr.
  rewrite Hp in Hr. cbn [Barcode.ProcessBarcode Barcode.Length] in Hr.
  unfold Barcode.ValidateBarcode.
  rewrite BarcodeFacts.eqb_empty_length by lia.
  destruct (Nat.ltb_spec (String.length (Barcode.Content p)) 3); [lia |].
  destruct (Nat.ltb_spec 50 (String.length (Barcode.Content p))); [lia |].
  by rewrite hookString_illegal.
Qed.

Lemma emitted_payload_validation_witness :
  hookString (barcodeBuffer (appHook defaultConfig)) = true
  /\ 3 <= MinLength (config (appHook defaultConfig))
  /\ MaxLength (config (appHook defaultConfig)) <= 50
  /\ In (Handlers.HandleBarcode "A,B" (30 * ms)) (run (appHook defaultConfig) commaScan).2
  /\ Barcode.ValidateBarcode "A,B" = (false, "条码包含非法字符").
Proof.
  assert (Hin : In (Handlers.HandleBarcode "A,B" (30 * ms))
                   (run (appHook defaultConfig) commaScan).2)
    by (vm_compute; left; reflexivity).
  assert (H3 : 3 <= MinLength (config (appHook defaultConfig))) by (cbn; lia).
  assert (H50 : MaxLength (config (appHook defaultConfig)) <= 50) by (cbn; lia).
  split; [reflexivity |]. split; [exact H3 |]. split; [exact H50 |].
  split; [exact Hin |].
  exact (emitted_payload_validation (appHook defaultConfig) commaScan _
           eq_refl eq_refl H3 H50 Hin).
Defined.

Lemma step_muted h ev :
  handler h = None \/ MaxLength (config h) < MinLength (config h) ->
  (keyboardHookProc h ev).2 = [].
Proof.
  intros Hm.
  destruct (step_cases h ev) as [[G ->]|[[Hk Hc]|[[Hk Hv]|(Hk & Hc & Hv)]]].
  - done.
  - by rewrite step_char.
  - rewrite step_return by done. cbn [snd].
    destruct (_ && _) eqn:E; [| done]. apply in_range_b in E.
    destruct Hm as [->|Hlt]; [done |]. unfold in_range in E. lia.
  - by rewrite step_other.
Qed.

(** X8: a Hook without handler, or configured with a maximum length below
    the minimum length, never emits a payload, whatever is typed; it still
    consumes the keystrokes and resets its buffer on every terminator. *)
Theorem muted_hook_emits_nothing (h : Hook) (evs : list KeyEvent) :
  handler h = None \/ MaxLength (config h) < MinLength (config h) ->
  (run h evs).2 = []
  /\ (forall ev, is_keydown ev -> vkCode ev = VK_RETURN ->
        barcodeBuffer (keyboardHookProc (run h evs).1 ev).1 = "").
Proof.
  intros Hm. split.
  - revert h Hm. induction evs as [|ev rest IH]; intros h Hm; [done |].
    rewrite run_cons. cbn [snd]. rewrite step_muted by done.
    destruct (step_config_handler h ev) as [Hc Hd].
    apply IH. by rewrite Hc, Hd.
  - intros ev Hk Hv. by rewrite step_return.
Qed.

Lemma muted_hook_emits_nothing_witness :
  (handler (NewHook defaultConfig None) = None
   \/ MaxLength (config (NewHook defaultConfig None))
      < MinLength (config (NewHook defaultConfig None)))
  /\ (run (NewHook defaultConfig None) commaScan).2 = [].
Proof.
  assert (H : handler (NewHook defaultConfig None) = None
              \/ MaxLength (config (NewHook defaultConfig None))
                 < MinLength (config (NewHook defaultConfig None)))
    by (left; reflexivity).
  split; [exact H |].
  exact (proj1 (muted_hook_emits_nothing (NewHook defaultConfig None) commaScan H)).
Defined.

Lemma payloads_bounded_by_terminators_witness :
  List.filter is_return_keydown [keydown 0x41 0; keydown 0x42 5] = []
  /\ (run hookABC [keydown 0x41 0; keydown 0x42 5]).2 = [].
Proof.
  assert (H : List.filter is_return_keydown [keydown 0x41 0; keydown 0x42 5] = [])
    by reflexivity.
  split; [exact H |].
  exact (proj2 (payloads_bounded_by_terminators hookABC
                  [keydown 0x41 0; keydown 0x42 5]) H).
Defined.

End HookFacts.

(* ===================================================================== *)
(** ** The standalone program against the layered one *)
(* ===================================================================== *)

Module StandaloneFacts.
Import Scanner ScannerFacts.
Local Open Scope Z_scope.

(** X22: the standalone [getBarcodeType] and [Processor.GetBarcodeType]
    give the same type, except that the standalone program has no prefix
    types: where the Processor answers product, lot or serial-number
    barcode, the standalone program answers "other". *)
Theorem standalone_type_vs_processor (s : string) :
  (In (Barcode.GetBarcodeType s) ["产品条码"; "批次条码"; "序列号条码"] ->
     Standalone.getBarcodeType s = "其他类型")
  /\ (~ In (Barcode.GetBarcodeType s) ["产品条码"; "批次条码"; "序列号条码"] ->
     Standalone.getBarcodeType s = Barcode.GetBarcodeType s).
Proof.
  unfold Standalone.getBarcodeType, Barcode.GetBarcodeType,
    Barcode.GetBarcodeType_switch.
  repeat match goal with
         | |- context [if ?b then _ else _] => destruct b
         end;
    (split;
     [ intros H; repeat (destruct H as [H|H]; [try discriminate H |]);
       try reflexivity; try destruct H
     | intros H; try reflexivity; exfalso; apply H; cbn; tauto ]).
Qed.

Lemma standalone_type_vs_processor_witness :
  In (Barcode.GetBarcodeType "LOT#7") ["产品条码"; "批次条码"; "序列号条码"]
  /\ Standalone.getBarcodeType "LOT#7" = "其他类型".
Proof.
  assert (H : In (Barcode.GetBarcodeType "LOT#7") ["产品条码"; "批次条码"; "序列号条码"])
    by (vm_compute; tauto).
  split; [exact H |].
  exact (proj1 (standalone_type_vs_processor "LOT#7") H).
Defined.

Lemma standalone_step h ev :
  TimeoutMS (config h) = Standalone.BARCODE_TIMEOUT_MS ->
  MinLength (config h) = Standalone.MIN_BARCODE_LENGTH ->
  handler h = Some Handlers.HandleBarcode ->
  (Standalone.keyboardHookProc (Standalone.globals_of h) ev).1
    = Standalone.globals_of (keyboardHookProc h ev).1
  /\ map Barcode.Content (keyboardHookProc h ev).2
     = List.filter (fun b => len b <=? MaxLength (config h))
         (Standalone.keyboardHookProc (Standalone.globals_of h) ev).2.
Proof.
  intros Ht Hm Hh.
  assert (Hcand : (if Milliseconds (Sub (now ev) (lastKeyTime h))
                      >? Standalone.BARCODE_TIMEOUT_MS
                   then "" else barcodeBuffer h) = candidate h ev).
  { unfold candidate, timeDiff. by rewrite Ht. }
  unfold Standalone.keyboardHookProc. cbv zeta.
  cbn [Standalone.globals_of Standalone.barcodeBuffer Standalone.lastKeyTime].
  rewrite Hcand.
  destruct (HookFacts.step_cases h ev) as [[G ->]|[[Hk Hc]|[[Hk Hv]|(Hk & Hc & Hv)]]].
  - unfold passes_guard in G. rewrite G. done.
  - rewrite (keydown_guard _ Hk), Hc, (getChar_nonzero _ Hc), step_char by done.
    done.
  - rewrite (keydown_guard _ Hk), Hv, step_return by done.
    change (isCharacterKey VK_RETURN) with false.
    change (VK_RETURN =? VK_RETURN) with true. cbv iota.
    split; [done |]. cbn [fst snd]. rewrite Hm, Hh.
    destruct (len (candidate h ev) >=? Standalone.MIN_BARCODE_LENGTH);
      cbn [andb List.filter map]; [| done].
    by destruct (len (candidate h ev) <=? MaxLength (config h)).
  - rewrite (keydown_guard _ Hk), Hc, step_other by done.
    apply Z.eqb_neq in Hv. rewrite Hv. done.
Qed.

(** X23: the hook procedure of the standalone program is the Hook with
    the timeout 100 ms, the minimum length 3 and no maximum length: on any
    stream, from corresponding states, both end in corresponding states, and
    the contents the Hook emits are the barcodes the standalone program
    processes, less those longer than the configured maximum. *)
Theorem standalone_hook_has_no_maximum (h : Hook) (evs : list KeyEvent) :
  TimeoutMS (config h) = Standalone.BARCODE_TIMEOUT_MS ->
  MinLength (config h) = Standalone.MIN_BARCODE_LENGTH ->
  handler h = Some Handlers.HandleBarcode ->
  (Standalone.run (Standalone.globals_of h) evs).1
    = Standalone.globals_of (run h evs).1
  /\ map Barcode.Content (run h evs).2
     = List.filter (fun b => len b <=? MaxLength (config h))
         (Standalone.run (Standalone.globals_of h) evs).2.
Proof.
  revert h. induction evs as [|ev rest IH]; intros h Ht Hm Hh; [done |].
  destruct (standalone_step h ev Ht Hm Hh) as [Hs Ho].
  destruct (step_config_handler h ev) as [Hc Hd].
  destruct (IH (keyboardHookProc h ev).1) as [IHs IHo];
    [by rewrite Hc | by rewrite Hc | by rewrite Hd |].
  rewrite run_cons. cbn [fst snd].
  change (Standalone.run (Standalone.globals_of h) (ev :: rest)) with
    (let '(g1, out1) := Standalone.keyboardHookProc (Standalone.globals_of h) ev in
     let '(g2, out2) := Standalone.run g1 rest in (g2, (out1 ++ out2)%list)).
  destruct (Standalone.keyboardHookProc (Standalone.globals_of h) ev) as [g1 o1].
  cbn [fst snd] in Hs, Ho. subst g1.
  destruct (Standalone.run (Standalone.globals_of (keyboardHookProc h ev).1) rest)
    as [g2 o2].
  cbn [fst snd] in IHs, IHo |- *. split; [done |].
  rewrite List.map_app, List.filter_app, Ho, IHo, Hc. done.
Qed.

Lemma standalone_hook_has_no_maximum_witness :
  TimeoutMS (config (appHook defaultConfig)) = Standalone.BARCODE_TIMEOUT_MS
  /\ MinLength (config (appHook defaultConfig)) = Standalone.MIN_BARCODE_LENGTH
  /\ map Barcode.Content (run (appHook defaultConfig) commaScan).2
     = List.filter (fun b => len b <=? MaxLength (config (appHook defaultConfig)))
         (Standalone.run (Standalone.globals_of (appHook defaultConfig)) commaScan).2.
Proof.
  split; [reflexivity |]. split; [reflexivity |].
  exact (proj2 (standalone_hook_has_no_maximum (appHook defaultConfig) commaScan
                  eq_refl eq_refl eq_refl)).
Defined.

(** X24: the message of the standalone [processBarcode] is the one of
    [Processor.generateMessage] when that is the product, EAN-13, UPC-A or
    generic message; where the Processor announces a lot, serial-number,
    EAN-8 or ITF-14 barcode, the standalone program gives the generic
    message. *)
Theorem standalone_message_vs_processor (s : string) (t : Z) :
  (In (Barcode.generateMessage s)
      ["识别为产品条码，正在查询产品信息..."; "识别为EAN-13条码，正在验证...";
       "识别为UPC-A条码，正在处理..."; "通用条码，正在记录..."] ->
     Barcode.Message (Standalone.processBarcode s t) = Barcode.generateMessage s)
  /\ (In (Barcode.generateMessage s)
      ["识别为批次条码，正在查询批次信息..."; "识别为序列号条码，正在验证序列号...";
       "识别为EAN-8条码，正在处理..."; "识别为ITF-14条码，正在处理..."] ->
     Barcode.Message (Standalone.processBarcode s t) = "通用条码，正在记录...").
Proof.
  unfold Standalone.processBarcode, Barcode.generateMessage. cbn [Barcode.Message].
  destruct (Barcode.isAllDigits s) eqn:Hd.
  - destruct (ProcessorFacts.digits_no_prefixes s Hd) as (-> & -> & ->).
    destruct (Nat.eqb_spec (String.length s) 13) as [H13|H13];
    [| destruct (Nat.eqb_spec (String.length s) 12) as [H12|H12];
       [| destruct (Nat.eqb_spec (String.length s) 8) as [H8|H8];
          [| destruct (Nat.eqb_spec (String.length s) 14) as [H14|H14]]]];
    cbn [andb];
    (split; intros H; try reflexivity;
     repeat (destruct H as [H|H]; [try discriminate H |]); try destruct H).
  - rewrite !andb_false_r.
    repeat match goal with
           | |- context [if ?b then _ else _] => destruct b
           end;
    (split; intros H; try reflexivity;
     repeat (destruct H as [H|H]; [try discriminate H |]); try destruct H).
Qed.

Lemma standalone_message_vs_processor_witness :
  In (Barcode.generateMessage "LOT42")
     ["识别为批次条码，正在查询批次信息..."; "识别为序列号条码，正在验证序列号...";
      "识别为EAN-8条码，正在处理..."; "识别为ITF-14条码，正在处理..."]
  /\ Barcode.Message (Standalone.processBarcode "LOT42" 0) = "通用条码，正在记录...".
Proof.
  assert (H : In (Barcode.generateMessage "LOT42")
     ["识别为批次条码，正在查询批次信息..."; "识别为序列号条码，正在验证序列号...";
      "识别为EAN-8条码，正在处理..."; "识别为ITF-14条码，正在处理..."])
    by (vm_compute; tauto).
  split; [exact H |].
  exact (proj2 (standalone_message_vs_processor "LOT42" 0) H).
Defined.

End StandaloneFacts.

(* ===================================================================== *)
(** ** Further facts about the Hub *)
(* ===================================================================== *)

Module HubMore.
Import Websocket HubFacts.

(** X16: after a broadcast step the live set is the former live set less
    the subscribers whose queue was full, so [GetClientCount] drops by
    exactly the number of live subscribers that had a full queue. *)
Theorem broadcast_drops_exactly_full (h : Hub) (message : Bytes) (rest : list Bytes) :
  hub_wf h -> buf (broadcast h) = message :: rest ->
  exists h', Run_broadcast h = Done h'
    /\ clients h' = filter (fun kv => roomy h kv.1) (clients h)
    /\ (GetClientCount h'
        + size (filter (fun kv => ~ roomy h kv.1) (clients h))
        = GetClientCount h)%nat.
Proof.
  intros Hwf Hbuf. unfold Run_broadcast. rewrite Hbuf.
  set (h0 := set_broadcast h _).
  assert (Hopen : forall c, is_Some (clients h0 !! c) -> client_open h0 c)
    by (intros c Hc; exact (wf_open h c Hwf Hc)).
  destruct (fanout_spec message h0 Hopen) as (h' & Heq & _ & _ & Hout & Hin).
  assert (Hcl : clients h' = filter (fun kv => roomy h kv.1) (clients h)).
  { apply map_eq. intros c. destruct (clients h !! c) as [v|] eqn:Hc.
    - destruct (wf_live_chan h c Hwf) as (ch & Hs & Ho); [by exists v |].
      destruct (Hin c ch) as [Hroom Hfull]; [by exists v | done |].
      destruct (room_or_full ch) as [Hr|Hf].
      + destruct (Hroom Hr) as [-> _]. cbn [h0 set_broadcast clients]. rewrite Hc.
        symmetry. apply map_lookup_filter_Some_2; [done |].
        unfold roomy. cbn. by rewrite Hs.
      + destruct (Hfull Hf) as [-> _]. symmetry.
        apply map_lookup_filter_None_2. right. intros x _.
        unfold roomy. cbn. rewrite Hs. unfold has_room, is_full in *. lia.
    - destruct (Hout c Hc) as [-> _]. symmetry.
      apply map_lookup_filter_None_2. by left. }
  exists h'. split; [exact Heq |]. split; [exact Hcl |].
  unfold GetClientCount. rewrite Hcl.
  rewrite <- map_size_disj_union by apply map_disjoint_filter_complement.
  by rewrite map_filter_union_complement.
Qed.

Lemma broadcast_drops_exactly_full_witness :
  hub_wf threeClients
  /\ exists h', Run_broadcast threeClients = Done h'
       /\ clients h' = filter (fun kv => roomy threeClients kv.1) (clients threeClients).
Proof.
  assert (Hwf : hub_wf threeClients)
    by (apply (bool_decide_unpack _); vm_compute; reflexivity).
  split; [exact Hwf |].
  destruct (broadcast_drops_exactly_full threeClients _ [] Hwf eq_refl)
    as (h' & H1 & H2 & _).
  exists h'. by split.
Defined.

(** X17: a connection followed by the unregistration of the new subscriber
    restores the live set and the subscriber count; in between the count is
    one higher; afterwards the queue of that subscriber is closed and still
    holds its welcome message, and the other queues and the inbound channel
    are as before. *)
Theorem connect_then_unregister (h : Hub) (now : Z) :
  hub_wf h ->
  exists h1 h2,
    HandleWebSocket now h = (newClient h, Done h1)
    /\ Run_unregister (newClient h) h1 = Done h2
    /\ GetClientCount h1 = S (GetClientCount h)
    /\ clients h2 = clients h
    /\ GetClientCount h2 = GetClientCount h
    /\ send h2 = <[newClient h :=
                     {| buf := [Marshal (welcomeMsg now)]; cap := 256;
                        closed := true |}]> (send h)
    /\ broadcast h2 = broadcast h.
Proof.
  intros Hwf. pose proof (wf_fresh_not_live h Hwf) as Hfresh.
  destruct (HandleWebSocket_spec now h) as (h1 & Heq & Hc & Hs & Hb).
  exists h1. eexists. split; [exact Heq |].
  split.
  { eapply (Run_unregister_live _ h1 _ true).
    - rewrite Hc. apply lookup_insert_eq.
    - rewrite Hs. apply lookup_insert_eq.
    - reflexivity. }
  assert (Hdel : delete (newClient h) (clients h1) = clients h).
  { rewrite Hc, delete_insert_eq. by apply delete_id. }
  split.
  { unfold GetClientCount. rewrite Hc. by apply map_size_insert_None. }
  cbn. rewrite Hdel. split; [done |]. split; [done |].
  split; [| done]. rewrite Hs. by rewrite insert_insert_eq.
Qed.

Lemma connect_then_unregister_witness :
  hub_wf threeClients
  /\ exists h1 h2,
       HandleWebSocket 5 threeClients = (newClient threeClients, Done h1)
       /\ Run_unregister (newClient threeClients) h1 = Done h2
       /\ clients h2 = clients threeClients.
Proof.
  assert (Hwf : hub_wf threeClients)
    by (apply (bool_decide_unpack _); vm_compute; reflexivity).
  split; [exact Hwf |].
  destruct (connect_then_unregister threeClients 5 Hwf)
    as (h1 & h2 & H1 & H2 & _ & H3 & _).
  exists h1, h2. by split.
Defined.

(** X18: registering a subscriber whose queue is open and already full
    tears it down: the welcome message is not queued, the queue is closed and
    the subscriber is not live afterwards, although the connection was logged
    with the count it would have had; the other subscribers are untouched. *)
Theorem register_on_full_queue (h : Hub) (c : ClientPtr) (ch : Chan Bytes) (now : Z) :
  send h !! c = Some ch -> closed ch = false -> is_full ch ->
  exists h', Run_register c now h = Done h'
    /\ clients h' !! c = None
    /\ send h' !! c = Some (shut ch)
    /\ buf (shut ch) = buf ch
    /\ (forall c', c' <> c ->
          clients h' !! c' = clients h !! c' /\ send h' !! c' = send h !! c')
    /\ logs h' = (logs h ++ [ {| level := Info; text := "新客户端连接";
                                 client_count :=
                                   Some (size (<[c := true]> (clients h))) |} ])%list.
Proof.
  intros Hs Ho Hf. unfold Run_register.
  erewrite send_or_drop_full; [| exact Hs | exact Ho | exact Hf].
  eexists. split; [reflexivity |]. cbn.
  split; [apply lookup_delete_eq |]. split; [apply lookup_insert_eq |].
  split; [done |]. split; [| done].
  intros c' Hne. by rewrite lookup_delete_ne, !lookup_insert_ne.
Qed.

Lemma register_on_full_queue_witness :
  send threeClients !! 1%nat = Some {| buf := [nilBytes]; cap := 1; closed := false |}
  /\ exists h', Run_register 1%nat 9 threeClients = Done h'
       /\ clients h' !! 1%nat = None.
Proof.
  assert (Hs : send threeClients !! 1%nat
               = Some {| buf := [nilBytes]; cap := 1; closed := false |})
    by (vm_compute; reflexivity).
  assert (Hf : is_full {| buf := [nilBytes]; cap := 1; closed := false |})
    by (vm_compute; lia).
  split; [exact Hs |].
  destruct (register_on_full_queue threeClients 1%nat _ 9 Hs eq_refl Hf)
    as (h' & H1 & H2 & _).
  exists h'. by split.
Defined.

(** *** Order of delivery *)







(** *** Shutdown *)

Lemma close_step_spec c h :
  client_open h c ->
  exists ch, send h !! c = Some ch /\ closed ch = false
    /\ close_step (Done h) c = Done (set_send h c (shut ch)).
Proof.
  unfold client_open. destruct (send h !! c) as [ch|] eqn:Hs; [| done].
  intros Ho. exists ch. split; [done |]. split; [done |].
  cbn [close_step]. by rewrite Hs, close_open.
Qed.

Lemma close_foldl (l : list ClientPtr) :
  NoDup l -> forall h,
  (forall c, c ∈ l -> client_open h c) ->
  exists h', foldl close_step (Done h) l = Done h'
    /\ clients h' = clients h /\ broadcast h' = broadcast h /\ logs h' = logs h
    /\ (forall c, c ∉ l -> send h' !! c = send h !! c)
    /\ (forall c ch, c ∈ l -> send h !! c = Some ch -> send h' !! c = Some (shut ch)).
Proof.
  induction 1 as [|a l Hnotin Hnd IH]; intros h Hopen.
  - exists h. repeat split; try done. intros c ch Hc. by apply elem_of_nil in Hc.
  - destruct (close_step_spec a h) as (ch & Hs & Ho & Hstep); [apply Hopen; by left |].
    destruct (IH (set_send h a (shut ch))) as (h' & Hfold & Hc & Hb & Hl & Hout & Hin).
    { intros c Hc. assert (c <> a) by (intros ->; done).
      unfold client_open. cbn. rewrite lookup_insert_ne by done.
      apply Hopen. by right. }
    exists h'. split; [cbn [foldl]; by rewrite Hstep |].
    split; [done |]. split; [done |]. split; [done |]. split.
    + intros c Hc'. apply not_elem_of_cons in Hc' as [Hne Hc'].
      rewrite (Hout c Hc'). cbn. by rewrite lookup_insert_ne.
    + intros c ch' Hc' Hs'. apply elem_of_cons in Hc' as [->|Hc'].
      * rewrite (Hout a Hnotin). cbn. rewrite lookup_insert_eq. congruence.
      * assert (c <> a) by (intros ->; done).
        apply Hin; [done |]. cbn. by rewrite lookup_insert_ne.
Qed.

Lemma foldl_close_panics l : foldl close_step Panics l = Panics.
Proof. by induction l. Qed.

Lemma foldl_fanout_panics m l : foldl (fanout_step m) Panics l = Panics.
Proof. by induction l. Qed.

Lemma range_nonempty h :
  clients h <> ∅ -> exists c l, range_clients h = c :: l /\ is_Some (clients h !! c).
Proof.
  intros Hne. destruct (range_clients h) as [|c l] eqn:Hr.
  - exfalso. apply Hne. apply map_to_list_empty_iff.
    unfold range_clients in Hr. by apply fmap_nil_inv in Hr.
  - exists c, l. split; [done |]. apply elem_of_range_clients. rewrite Hr. by left.
Qed.

(** [Close] on a well-formed Hub. *)
Lemma Close_spec h :
  hub_wf h ->
  exists h', Close h = Done h'
    /\ clients h' = clients h
    /\ broadcast h' = shut (broadcast h)
    /\ (forall c ch, is_Some (clients h !! c) -> send h !! c = Some ch ->
          send h' !! c = Some (shut ch))
    /\ (forall c, clients h !! c = None -> send h' !! c = send h !! c).
Proof.
  intros Hwf.
  destruct (close_foldl (range_clients h) (NoDup_fst_map_to_list _) h)
    as (h1 & Hfold & Hc & Hb & _ & Hout & Hin).
  { intros c Hc. by apply (wf_open h c Hwf), elem_of_range_clients. }
  unfold Close. unfold range_clients in Hfold. rewrite Hfold.
  rewrite close_open by (rewrite Hb; exact (proj1 Hwf)).
  eexists. split; [reflexivity |]. cbn. split; [done |]. split; [by rewrite Hb |].
  split.
  - intros c ch Hlive Hs. apply Hin; [by apply elem_of_range_clients | done].
  - intros c Hnone. apply Hout. rewrite elem_of_range_clients, Hnone.
    by intros [? ?].
Qed.

(** X21: [Close] on a well-formed Hub closes the inbound channel and the
    queue of every live subscriber but leaves the live set as it is, so
    [GetClientCount] still counts them.  It is safe once only: a second
    [Close] panics, a later [BroadcastBarcode] panics instead of dropping the
    message, and with at least one subscriber the next broadcast step of
    [Run] panics. *)
Theorem Close_is_final (h : Hub) :
  hub_wf h ->
  exists h', Close h = Done h'
    /\ GetClientCount h' = GetClientCount h
    /\ closed (broadcast h') = true
    /\ (forall c ch, is_Some (clients h !! c) -> send h !! c = Some ch ->
          send h' !! c = Some (shut ch))
    /\ Close h' = Panics
    /\ (forall d now, BroadcastBarcode d now h' = Panics)
    /\ (clients h <> ∅ -> Run_broadcast h' = Panics).
Proof.
  intros Hwf. destruct (Close_spec h Hwf) as (h' & Heq & Hc & Hb & Hin & _).
  exists h'. split; [exact Heq |].
  split; [unfold GetClientCount; by rewrite Hc |].
  split; [by rewrite Hb |]. split; [exact Hin |].
  assert (Hfirst : clients h <> ∅ ->
    exists c l ch, (map_to_list (clients h')).*1 = c :: l
      /\ send h' !! c = Some (shut ch)).
  { intros Hne. destruct (range_nonempty h Hne) as (c & l & Hr & Hlive).
    destruct (wf_live_chan h c Hwf Hlive) as (ch & Hs & _).
    exists c, l, ch. split; [by rewrite Hc | by apply Hin]. }
  split; [| split].
  - unfold Close. destruct (decide (clients h = ∅)) as [He|Hne].
    + rewrite Hc, He, map_to_list_empty. cbn [fmap list_fmap foldl].
      unfold close. by rewrite Hb.
    + destruct (Hfirst Hne) as (c & l & ch & -> & Hs).
      cbn [foldl close_step]. rewrite Hs. cbn. by rewrite foldl_close_panics.
  - intros d now. unfold BroadcastBarcode, try_send. by rewrite Hb.
  - intros Hne. destruct (Hfirst Hne) as (c & l & ch & Hr & Hs).
    assert (Hfan : forall m h0, clients h0 = clients h' -> send h0 = send h' ->
              fanout m h0 = Panics).
    { intros m h0 Hc0 Hs0. unfold fanout. rewrite Hc0, Hr.
      cbn [foldl fanout_step]. unfold send_or_drop. rewrite Hs0, Hs.
      cbn. by rewrite foldl_fanout_panics. }
    unfold Run_broadcast. destruct (buf (broadcast h')) as [|m rest].
    + rewrite Hb. cbn. by apply Hfan.
    + by apply Hfan.
Qed.

Lemma Close_is_final_witness :
  hub_wf threeClients
  /\ exists h', Close threeClients = Done h' /\ Close h' = Panics.
Proof.
  assert (Hwf : hub_wf threeClients)
    by (apply (bool_decide_unpack _); vm_compute; reflexivity).
  split; [exact Hwf |].
  destruct (Close_is_final threeClients Hwf) as (h' & H1 & _ & _ & _ & H2 & _).
  exists h'. by split.
Defined.

End HubMore.
